(** * The Synx sample scripts

    A shallow embedding of the four Python fixtures of the repository:
    - [src/examples/python/valid.py]                          (module [ValidPy])
    - [src/test.py]                                           (module [TestPy])
    - [src/source/tests/files/python/valid/calculator.py]     (module [CalculatorPy])
    - [src/source/tests/files/python/invalid/bad_code.py]     (module [BadCodePy])

    Python integers are [Z], Python floats are binary64 values of the
    Standard Library's [SpecFloat], the dictionary [memo] is a [gmap Z Z],
    lists are lists, and a running script is a function of the world it is
    started in that threads its standard output. Module [Py] holds what the
    scripts use of the language: [print], [range], [for], [try], the
    conversions between integers, floats and strings, and the brackets of a
    source text. Module [Style] is a style check in the terms of the
    specification, the checker itself not being part of the sources. *)

From Stdlib Require Import ZArith Zdivisibility Lia Ascii String List.
From Stdlib Require Import Floats.SpecFloat.
From stdpp Require Import base option list gmap strings pretty.

Local Open Scope Z_scope.

(** ** The Python run time the scripts rely on *)

Module Py.

(** The exceptions the scripts can meet. *)
Inductive exn : Type :=
| OverflowError
| ValueError
| TypeError
| IndexError.

(** The result of evaluating an expression or a call. *)
Inductive outcome (A : Type) : Type :=
| Return (a : A)
| Raise (e : exn).
Arguments Return {A} a.
Arguments Raise {A} e.

(** What a Python process can observe of its surroundings. *)
Record world : Type := World {
  argv : list string;
  environ : gmap string string;
  stdin : list string
}.

(** A computation reads the world, extends the text written to standard
    output (one entry per [print] call) and either returns, raises, or
    exhausts the recursion budget it was given ([None]). *)
Definition proc (A : Type) : Type :=
  world → list string → option (outcome A * list string).

Definition ret {A} (a : A) : proc A := λ _ out, Some (Return a, out).

Definition bind {A B} (c : proc A) (k : A → proc B) : proc B :=
  λ w out,
    match c w out with
    | None => None
    | Some (Raise e, out') => Some (Raise e, out')
    | Some (Return a, out') => k a w out'
    end.

(** Lifting of a pure evaluation that may raise. *)
Definition lift {A} (o : outcome A) : proc A := λ _ out, Some (o, out).

(** Lifting of a pure evaluation bounded by a recursion budget. *)
Definition lift_fuel {A} (o : option A) : proc A :=
  λ _ out, match o with Some a => Some (Return a, out) | None => None end.

(** [try: body except: handler] with a bare [except], which catches every
    exception. *)
Definition try_except {A} (body handler : proc A) : proc A :=
  λ w out,
    match body w out with
    | Some (Raise _, out') => handler w out'
    | r => r
    end.

(** [print(s)]: one more line on standard output. *)
Definition print (s : string) : proc unit := λ _ out, Some (Return tt, out ++ [s]).

(** [print(a, b, ...)]: the arguments separated by one space. *)
Definition print_args (args : list string) : proc unit :=
  print (String.concat " " args).


(** [l[-1]]: the item at index [len(l) - 1], [IndexError] on an empty list. *)
Definition last_item {A} (l : list A) : outcome A :=
  let i := Z.of_nat (length l) - 1 in
  if i <? 0 then Raise IndexError
  else
    match l !! Z.to_nat i with
    | Some x => Return x
    | None => Raise IndexError
    end.


(** [sys.argv[i]], which none of the scripts uses. *)
Definition sys_argv (i : nat) : proc string :=
  λ w out, match argv w !! i with
           | Some s => Some (Return s, out)
           | None => Some (Raise IndexError, out)
           end.

(** [for x in xs: body(x)] *)
Fixpoint for_each {A} (xs : list A) (body : A → proc unit) : proc unit :=
  match xs with
  | [] => ret tt
  | x :: rest => bind (body x) (λ _, for_each rest body)
  end.

(** [range(a, b)] and [range(b)] over integers. *)
Definition range (a b : Z) : list Z := seqZ a (b - a).
Definition range0 (b : Z) : list Z := range 0 b.

(** [str(i)] for an integer, as an f-string formats it. *)
Definition str (i : Z) : string := pretty i.

(** The line feed of an escaped [\n] in a literal. *)
Definition nl : string := String "010"%char EmptyString.

(** *** Floats *)

Definition float : Type := spec_float.

(** [float(i)] on an integer: rounding to the nearest binary64, and
    [OverflowError] when the integer is too large. *)
Definition float_of_int (i : Z) : outcome float :=
  match binary_normalize 53 1024 i 0 false with
  | S754_infinity _ => Raise OverflowError
  | f => Return f
  end.

(** [x ** 0.5] on a float [x] is the power function of the C library at the
    exponent one half. That function is not part of the sources, and its
    last bit differs from one library to the next: the functions that call
    it take it as a parameter [pow], of which nothing is assumed.

    [pow_half] is the correctly rounded binary64 square root, which the
    library's function need not equal in the last bit. It stands in for it
    where a script is run: the scripts call it on the integers below 20 and
    on the first twenty Fibonacci numbers only. *)
Definition pow_half (x : float) : float := SFsqrt 53 1024 x.

(** [int(x)] on a float: truncation towards zero. *)
Definition int_of_float (x : float) : outcome Z :=
  match x with
  | S754_zero _ => Return 0
  | S754_finite s m e => Return (cond_Zopp s (Z.shiftl (Z.pos m) e))
  | S754_infinity _ => Raise OverflowError
  | S754_nan => Raise ValueError
  end.

(** [int(num ** 0.5)] on an integer [num]: the conversion of [num] to a
    float, the power function [pow] of the C library, and the truncation of
    its result. *)
Definition int_sqrt_with (pow : float → float) (num : Z) : outcome Z :=
  match float_of_int num with
  | Raise e => Raise e
  | Return x => int_of_float (pow x)
  end.

(** The same with the correctly rounded root, as the scripts are run. *)
Definition int_sqrt (num : Z) : outcome Z := int_sqrt_with pow_half num.

(** *** [float] on a [str]

    The conversion of a text to a float: surrounding white space is
    dropped, underscores may separate digits, and what is left is an
    optional sign followed by [inf], [infinity] or [nan] in any case, or by
    a decimal numeral with an optional exponent. The value is rounded to the
    nearest binary64, an overflow gives an infinity, and any other text
    raises [ValueError]. A [string] stands for the [str] with the same code
    points. *)

Definition code (c : ascii) : Z := Z.of_nat (nat_of_ascii c).

Definition is_digit (c : ascii) : bool := (48 <=? code c) && (code c <=? 57).

(** The white space of the conversion: blank, tab, line feed, vertical tab,
    form feed, carriage return, and the two separators above 127 that it
    turns into blanks. *)
Definition is_space (c : ascii) : bool :=
  ((9 <=? code c) && (code c <=? 13)) || (code c =? 32)
  || (code c =? 133) || (code c =? 160).

(** The other characters from 127 on are neither digits nor white space. *)
Definition is_foreign (c : ascii) : bool := (127 <=? code c) && negb (is_space c).

(** The text without its underscores; an underscore has to stand between
    two digits. [prev] is the character before [cs]. *)
Fixpoint drop_underscores (prev : ascii) (cs : list ascii) : option (list ascii) :=
  match cs with
  | [] => if Ascii.eqb prev "_" then None else Some []
  | c :: rest =>
      if Ascii.eqb c "_" then
        if is_digit prev then drop_underscores c rest else None
      else if Ascii.eqb prev "_" && negb (is_digit c) then None
      else cons c <$> drop_underscores c rest
  end.

Fixpoint lstrip_space (cs : list ascii) : list ascii :=
  match cs with
  | c :: rest => if is_space c then lstrip_space rest else cs
  | [] => []
  end.

Definition strip (cs : list ascii) : list ascii :=
  reverse (lstrip_space (reverse (lstrip_space cs))).

(** A leading sign: [true] for a minus. *)
Definition sign_of (cs : list ascii) : bool * list ascii :=
  match cs with
  | c :: rest =>
      if Ascii.eqb c "-" then (true, rest)
      else if Ascii.eqb c "+" then (false, rest)
      else (false, cs)
  | [] => (false, [])
  end.

(** The leading digits of [cs] appended to the numeral [acc]: the value,
    the number of digits read, and the rest of the text. *)
Fixpoint digits (cs : list ascii) (acc : Z) (n : Z) : Z * Z * list ascii :=
  match cs with
  | c :: rest =>
      if is_digit c then digits rest (10 * acc + (code c - 48)) (n + 1)
      else (acc, n, cs)
  | [] => (acc, n, [])
  end.

(** An exponent part [e], sign, digits; without digits it is not read. *)
Definition exponent_of (cs : list ascii) : Z * list ascii :=
  match cs with
  | c :: rest =>
      if Ascii.eqb c "e" || Ascii.eqb c "E" then
        let '(neg, r) := sign_of rest in
        let '(x, nx, r') := digits r 0 0 in
        if nx =? 0 then (0, cs) else (if neg : bool then - x else x, r')
      else (0, cs)
  | [] => (0, [])
  end.

(** A decimal numeral: the digits [m] of its mantissa, its power of ten
    and the rest of the text; [None] when there is no digit to read. *)
Definition decimal_of (cs : list ascii) : option (Z * Z * list ascii) :=
  let '(ip, ni, r1) := digits cs 0 0 in
  let '(m, nf, r2) :=
    match r1 with
    | c :: r => if Ascii.eqb c "." then digits r ip 0 else (ip, 0, r1)
    | [] => (ip, 0, r1)
    end in
  if ni + nf =? 0 then None
  else
    let '(x, r3) := exponent_of r2 in
    Some (m, x - nf, r3).

Definition lower (c : ascii) : ascii :=
  if (65 <=? code c) && (code c <=? 90)
  then ascii_of_nat (nat_of_ascii c + 32) else c.

(** [inf], [infinity] or [nan], in any case. *)
Definition special_of (neg : bool) (cs : list ascii) : option float :=
  let w := string_of_list_ascii (lower <$> cs) in
  if String.eqb w "inf" || String.eqb w "infinity" then Some (S754_infinity neg)
  else if String.eqb w "nan" then Some S754_nan
  else None.

(** The binary64 nearest to [m * 10 ^ x], with the sign [neg]. *)
Definition round_decimal (neg : bool) (m x : Z) : float :=
  if m =? 0 then S754_zero neg
  else if 0 <=? x then binary_normalize 53 1024 (cond_Zopp neg (m * 10 ^ x)) 0 false
  else SFdiv 53 1024 (S754_finite neg (Z.to_pos m) 0)
                     (S754_finite false (Z.to_pos (10 ^ (- x))) 0).

Definition float_of_str (s : string) : outcome float :=
  let cs := list_ascii_of_string s in
  if existsb is_foreign cs then Raise ValueError
  else
    match drop_underscores "000" cs with
    | None => Raise ValueError
    | Some cs =>
        let '(neg, body) := sign_of (strip cs) in
        match decimal_of body with
        | Some (m, x, []) => Return (round_decimal neg m x)
        | Some (_, _, _ :: _) => Raise ValueError
        | None =>
            match special_of neg body with
            | Some f => Return f
            | None => Raise ValueError
            end
        end
    end.

(** What the interpreter does with a script: the lines of standard output,
    and the traceback on standard error when an exception escapes. *)
Inductive effect : Type :=
| Stdout (line : string)
| Stderr (e : exn).

Definition run_script (main : proc unit) (w : world) : option (list effect) :=
  match main w [] with
  | None => None
  | Some (Return _, out) => Some (Stdout <$> out)
  | Some (Raise e, out) => Some ((Stdout <$> out) ++ [Stderr e])
  end.

(** *** Source text

    The text of a script, as the tokenizer reads it: string literals and
    comments are skipped, and every opening bracket has to be closed by the
    end of the file. *)

Definition dq : string := String "034"%char EmptyString.
Definition dq3 : string := dq +:+ dq +:+ dq.

(** The text of a file from its lines, each ended by a line feed. *)
Definition text_of_lines (lines : list string) : list ascii :=
  concat ((λ l, list_ascii_of_string l ++ ["010"%char]) <$> lines).

Inductive lex_state : Type :=
| InCode
| InComment
| InString (q : ascii) (triple : bool).

Definition is_quote (c : ascii) : bool :=
  Ascii.eqb c "034" || Ascii.eqb c "'".

(** The code characters of a text: comments are dropped, a string literal
    keeps its quotes and loses its content, line feeds stay. *)
Fixpoint code_chars (cs : list ascii) (st : lex_state) : list ascii :=
  match cs with
  | [] => []
  | c :: rest =>
      match st with
      | InComment =>
          if Ascii.eqb c "010" then c :: code_chars rest InCode
          else code_chars rest InComment
      | InString q triple =>
          if Ascii.eqb c "\" then
            match rest with
            | _ :: rest' => code_chars rest' st
            | [] => []
            end
          else if Ascii.eqb c q then
            if triple then
              match rest with
              | q1 :: q2 :: rest' =>
                  if Ascii.eqb q1 q && Ascii.eqb q2 q
                  then c :: code_chars rest' InCode
                  else code_chars rest st
              | _ => code_chars rest st
              end
            else c :: code_chars rest InCode
          else if Ascii.eqb c "010" then c :: code_chars rest st
          else code_chars rest st
      | InCode =>
          if Ascii.eqb c "#" then code_chars rest InComment
          else if is_quote c then
            match rest with
            | q1 :: q2 :: rest' =>
                if Ascii.eqb q1 c && Ascii.eqb q2 c
                then c :: code_chars rest' (InString c true)
                else c :: code_chars rest (InString c false)
            | _ => c :: code_chars rest (InString c false)
            end
          else c :: code_chars rest InCode
      end
  end.

Definition closing_of (c : ascii) : option ascii :=
  if Ascii.eqb c "(" then Some ")"%char
  else if Ascii.eqb c "[" then Some "]"%char
  else if Ascii.eqb c "{" then Some "}"%char
  else None.

Definition is_closing (c : ascii) : bool :=
  Ascii.eqb c ")" || Ascii.eqb c "]" || Ascii.eqb c "}".

(** The brackets still open at the end of the code [cs], innermost first;
    [None] when a closing bracket does not match. *)
Fixpoint open_brackets (cs : list ascii) (expected : list ascii) : option (list ascii) :=
  match cs with
  | [] => Some expected
  | c :: rest =>
      match closing_of c with
      | Some d => open_brackets rest (d :: expected)
      | None =>
          if is_closing c then
            match expected with
            | d :: expected' =>
                if Ascii.eqb c d then open_brackets rest expected' else None
            | [] => None
            end
          else open_brackets rest expected
      end
  end.

(** Every bracket of the file is closed, and closed by its own kind. *)
Definition brackets_balanced (lines : list string) : bool :=
  match open_brackets (code_chars (text_of_lines lines) InCode) [] with
  | Some [] => true
  | _ => false
  end.

End Py.

#[global] Instance proc_ret : MRet Py.proc := @Py.ret.
#[global] Instance proc_bind : MBind Py.proc := λ A B k c, Py.bind c k.

(** ** src/examples/python/valid.py *)

Module ValidPy.
Import Py.

(** The text of the file. *)
Definition source_lines : list string :=
  [
    (*  1 *) "#!/usr/bin/env python3";
    (*  2 *) dq3;
    (*  3 *) "A valid Python example that calculates Fibonacci numbers.";
    (*  4 *) "This file should pass validation with Synx.";
    (*  5 *) dq3;
    (*  6 *) EmptyString;
    (*  7 *) "def fibonacci(n):";
    (*  8 *) "    " +:+ dq3 +:+ "Calculate the nth Fibonacci number recursively with memoization." +:+ dq3;
    (*  9 *) "    memo = {0: 0, 1: 1}";
    (* 10 *) "    ";
    (* 11 *) "    def fib_memo(n):";
    (* 12 *) "        if n not in memo:";
    (* 13 *) "            memo[n] = fib_memo(n-1) + fib_memo(n-2)";
    (* 14 *) "        return memo[n]";
    (* 15 *) "    ";
    (* 16 *) "    return fib_memo(n)";
    (* 17 *) EmptyString;
    (* 18 *) "def is_prime(num):";
    (* 19 *) "    " +:+ dq3 +:+ "Check if a number is prime." +:+ dq3;
    (* 20 *) "    if num < 2:";
    (* 21 *) "        return False";
    (* 22 *) "    for i in range(2, int(num**0.5) + 1):";
    (* 23 *) "        if num % i == 0:";
    (* 24 *) "            return False";
    (* 25 *) "    return True";
    (* 26 *) EmptyString;
    (* 27 *) "if __name__ == " +:+ dq +:+ "__main__" +:+ dq +:+ ":";
    (* 28 *) "    print(" +:+ dq +:+ "Fibonacci Sequence:" +:+ dq +:+ ")";
    (* 29 *) "    for i in range(10):";
    (* 30 *) "        print(f" +:+ dq +:+ "fibonacci({i}) = {fibonacci(i)}" +:+ dq +:+ ")";
    (* 31 *) "    ";
    (* 32 *) "    print(" +:+ dq +:+ "\nPrime Fibonacci Numbers:" +:+ dq +:+ ")";
    (* 33 *) "    for i in range(20):";
    (* 34 *) "        fib = fibonacci(i)";
    (* 35 *) "        if is_prime(fib):";
    (* 36 *) "            print(f" +:+ dq +:+ "fibonacci({i}) = {fib} is prime" +:+ dq +:+ ")";
    (* 37 *) EmptyString;
    (* 38 *) EmptyString
  ].

(** The inner function [fib_memo] of [fibonacci]; [memo] is the dictionary
    it shares with its recursive calls, [fuel] bounds the depth of the
    recursion. *)
Fixpoint fib_memo (fuel : nat) (n : Z) (memo : gmap Z Z) : option (Z * gmap Z Z) :=
  match fuel with
  | O => None
  | S fuel' =>
      match memo !! n with
      | None =>
          match fib_memo fuel' (n - 1) memo with
          | None => None
          | Some (a, memo1) =>
              match fib_memo fuel' (n - 2) memo1 with
              | None => None
              | Some (b, memo2) =>
                  let memo3 := <[n := a + b]> memo2 in
                  match memo3 !! n with
                  | Some v => Some (v, memo3)
                  | None => None
                  end
              end
          end
      | Some v => Some (v, memo)
      end
  end.

Definition fibonacci (fuel : nat) (n : Z) : option Z :=
  let memo : gmap Z Z := {[ 0 := 0; 1 := 1 ]} in
  fst <$> fib_memo fuel n memo.

(** The body of the [for] loop of [is_prime]: [true] when no candidate
    divides [num]. *)
Fixpoint no_divisor (num : Z) (candidates : list Z) : bool :=
  match candidates with
  | [] => true
  | i :: rest => if num `mod` i =? 0 then false else no_divisor num rest
  end.

(** [is_prime]; [pow] is the power function behind [num ** 0.5]. *)
Definition is_prime_with (pow : float → float) (num : Z) : outcome bool :=
  if num <? 2 then Return false
  else
    match int_sqrt_with pow num with
    | Raise e => Raise e
    | Return r => Return (no_divisor num (range 2 (r + 1)))
    end.

(** [is_prime] as [main] is run, with the correctly rounded root. *)
Definition is_prime (num : Z) : outcome bool := is_prime_with pow_half num.

Definition main (fuel : nat) : proc unit :=
  print "Fibonacci Sequence:" ;;
  for_each (range0 10) (λ i,
    f ← lift_fuel (fibonacci fuel i);
    print ("fibonacci(" +:+ str i +:+ ") = " +:+ str f)) ;;
  print (nl +:+ "Prime Fibonacci Numbers:") ;;
  for_each (range0 20) (λ i,
    fib ← lift_fuel (fibonacci fuel i);
    p ← lift (is_prime fib);
    if (p : bool) then print ("fibonacci(" +:+ str i +:+ ") = " +:+ str fib +:+ " is prime")
    else ret tt).

End ValidPy.

(** ** src/test.py *)

Module TestPy.
Import Py.

(** The text of the file. *)
Definition source_lines : list string :=
  [
    (*  1 *) "#!/usr/bin/env python3";
    (*  2 *) dq3;
    (*  3 *) "This is a test file for Synx validation.";
    (*  4 *) "It contains a deliberate syntax error to test validation.";
    (*  5 *) dq3;
    (*  6 *) EmptyString;
    (*  7 *) "def calculate_fibonacci(n):";
    (*  8 *) "    " +:+ dq3 +:+ "Calculate the nth Fibonacci number recursively." +:+ dq3;
    (*  9 *) "    if n <= 1:";
    (* 10 *) "        return n";
    (* 11 *) "    else:";
    (* 12 *) "        return calculate_fibonacci(n-1) + calculate_fibonacci(n-2)";
    (* 13 *) "    ";
    (* 14 *) "# This function has a missing closing parenthesis above";
    (* 15 *) EmptyString;
    (* 16 *) "def is_prime(num):";
    (* 17 *) "    " +:+ dq3 +:+ "Check if a number is prime." +:+ dq3;
    (* 18 *) "    if num < 2:";
    (* 19 *) "        return False";
    (* 20 *) "    for i in range(2, int(num**0.5) + 1):";
    (* 21 *) "        if num % i == 0:";
    (* 22 *) "            return False";
    (* 23 *) "    return True";
    (* 24 *) EmptyString;
    (* 25 *) "if __name__ == " +:+ dq +:+ "__main__" +:+ dq +:+ ":";
    (* 26 *) "    # This will never execute due to the syntax error above";
    (* 27 *) "    print(" +:+ dq +:+ "Testing fibonacci calculation:" +:+ dq +:+ ")";
    (* 28 *) "    for i in range(10):";
    (* 29 *) "        print(f" +:+ dq +:+ "Fibonacci({i}) = {calculate_fibonacci(i)}" +:+ dq +:+ ")";
    (* 30 *) "        ";
    (* 31 *) "    print(" +:+ dq +:+ "\nTesting prime numbers:" +:+ dq +:+ ")";
    (* 32 *) "    for i in range(20):";
    (* 33 *) "        if is_prime(i):";
    (* 34 *) "            print(f" +:+ dq +:+ "{i} is prime" +:+ dq +:+ ")"
  ].

(** [calculate_fibonacci], the plain double recursion; [fuel] bounds its
    depth. *)
Fixpoint calculate_fibonacci (fuel : nat) (n : Z) : option Z :=
  match fuel with
  | O => None
  | S fuel' =>
      if n <=? 1 then Some n
      else
        match calculate_fibonacci fuel' (n - 1) with
        | None => None
        | Some a =>
            match calculate_fibonacci fuel' (n - 2) with
            | None => None
            | Some b => Some (a + b)
            end
        end
  end.

Fixpoint no_divisor (num : Z) (candidates : list Z) : bool :=
  match candidates with
  | [] => true
  | i :: rest => if num `mod` i =? 0 then false else no_divisor num rest
  end.

(** [is_prime]; [pow] is the power function behind [num ** 0.5]. *)
Definition is_prime_with (pow : float → float) (num : Z) : outcome bool :=
  if num <? 2 then Return false
  else
    match int_sqrt_with pow num with
    | Raise e => Raise e
    | Return r => Return (no_divisor num (range 2 (r + 1)))
    end.

(** [is_prime] as [main] is run, with the correctly rounded root. *)
Definition is_prime (num : Z) : outcome bool := is_prime_with pow_half num.

Definition main (fuel : nat) : proc unit :=
  print "Testing fibonacci calculation:" ;;
  for_each (range0 10) (λ i,
    f ← lift_fuel (calculate_fibonacci fuel i);
    print ("Fibonacci(" +:+ str i +:+ ") = " +:+ str f)) ;;
  print (nl +:+ "Testing prime numbers:") ;;
  for_each (range0 20) (λ i,
    p ← lift (is_prime i);
    if (p : bool) then print (str i +:+ " is prime") else ret tt).

End TestPy.

(** ** src/source/tests/files/python/valid/calculator.py *)

(** The numbers a calculator is used with: the operators [+] and [-] of the
    type. The signatures say [float]; [main] passes integers. *)
Class Number (T : Type) : Type := {
  add_op : T → T → T;
  sub_op : T → T → T
}.

#[global] Instance int_number : Number Z :=
  {| add_op := Z.add; sub_op := Z.sub |}.

#[global] Instance float_number : Number Py.float :=
  {| add_op := SFadd 53 1024; sub_op := SFsub 53 1024 |}.

Module CalculatorPy.
Import Py.

(** The text of the file. *)
Definition source_lines : list string :=
  [
    (*  1 *) "#!/usr/bin/env python3";
    (*  2 *) dq3;
    (*  3 *) "A simple calculator module with type hints.";
    (*  4 *) EmptyString;
    (*  5 *) "This module demonstrates proper PEP8 compliance and type hinting.";
    (*  6 *) dq3;
    (*  7 *) "from typing import Union, List, Optional";
    (*  8 *) EmptyString;
    (*  9 *) EmptyString;
    (* 10 *) "class Calculator:";
    (* 11 *) "    " +:+ dq3 +:+ "A simple calculator that performs basic arithmetic operations." +:+ dq3;
    (* 12 *) EmptyString;
    (* 13 *) "    def __init__(self) -> None:";
    (* 14 *) "        " +:+ dq3 +:+ "Initialize the calculator with a clean history." +:+ dq3;
    (* 15 *) "        self.history: List[float] = []";
    (* 16 *) EmptyString;
    (* 17 *) "    def add(self, a: float, b: float) -> float:";
    (* 18 *) "        " +:+ dq3;
    (* 19 *) "        Add two numbers and store the result in history.";
    (* 20 *) EmptyString;
    (* 21 *) "        Args:";
    (* 22 *) "            a: First number";
    (* 23 *) "            b: Second number";
    (* 24 *) EmptyString;
    (* 25 *) "        Returns:";
    (* 26 *) "            The sum of a and b";
    (* 27 *) "        " +:+ dq3;
    (* 28 *) "        result = a + b";
    (* 29 *) "        self.history.append(result)";
    (* 30 *) "        return result";
    (* 31 *) EmptyString;
    (* 32 *) "    def subtract(self, a: float, b: float) -> float:";
    (* 33 *) "        " +:+ dq3;
    (* 34 *) "        Subtract b from a and store the result in history.";
    (* 35 *) EmptyString;
    (* 36 *) "        Args:";
    (* 37 *) "            a: First number";
    (* 38 *) "            b: Second number";
    (* 39 *) EmptyString;
    (* 40 *) "        Returns:";
    (* 41 *) "            The difference between a and b";
    (* 42 *) "        " +:+ dq3;
    (* 43 *) "        result = a - b";
    (* 44 *) "        self.history.append(result)";
    (* 45 *) "        return result";
    (* 46 *) EmptyString;
    (* 47 *) "    def get_last_result(self) -> Optional[float]:";
    (* 48 *) "        " +:+ dq3;
    (* 49 *) "        Get the last calculation result.";
    (* 50 *) EmptyString;
    (* 51 *) "        Returns:";
    (* 52 *) "            The last result or None if no calculations have been performed";
    (* 53 *) "        " +:+ dq3;
    (* 54 *) "        if not self.history:";
    (* 55 *) "            return None";
    (* 56 *) "        return self.history[-1]";
    (* 57 *) EmptyString;
    (* 58 *) EmptyString;
    (* 59 *) "def main() -> None:";
    (* 60 *) "    " +:+ dq3 +:+ "Execute a simple demonstration of the calculator." +:+ dq3;
    (* 61 *) "    calc = Calculator()";
    (* 62 *) "    print(f" +:+ dq +:+ "5 + 3 = {calc.add(5, 3)}" +:+ dq +:+ ")";
    (* 63 *) "    print(f" +:+ dq +:+ "10 - 4 = {calc.subtract(10, 4)}" +:+ dq +:+ ")";
    (* 64 *) "    print(f" +:+ dq +:+ "Last result: {calc.get_last_result()}" +:+ dq +:+ ")";
    (* 65 *) EmptyString;
    (* 66 *) EmptyString;
    (* 67 *) "if __name__ == " +:+ dq +:+ "__main__" +:+ dq +:+ ":";
    (* 68 *) "    main()";
    (* 69 *) EmptyString;
    (* 70 *) EmptyString
  ].

Section Calculator.
Context {T : Type} `{Number T}.

(** An instance of the class: its one attribute. *)
Record Calculator : Type := { history : list T }.

(** [__init__] *)
Definition init : Calculator := {| history := [] |}.

(** Each method returns its result and the instance as it leaves it. *)
Definition add (self : Calculator) (a b : T) : T * Calculator :=
  let result := add_op a b in
  (result, {| history := history self ++ [result] |}).

Definition subtract (self : Calculator) (a b : T) : T * Calculator :=
  let result := sub_op a b in
  (result, {| history := history self ++ [result] |}).

Definition get_last_result (self : Calculator) : outcome (option T) * Calculator :=
  match history self with
  | [] => (Return None, self)
  | _ :: _ =>
      match last_item (history self) with
      | Return x => (Return (Some x), self)
      | Raise e => (Raise e, self)
      end
  end.

(** A use of an instance from outside: one method call. *)
Inductive call : Type :=
| CallAdd (a b : T)
| CallSubtract (a b : T)
| CallGetLastResult.

Definition perform (self : Calculator) (c : call) : Calculator :=
  match c with
  | CallAdd a b => snd (add self a b)
  | CallSubtract a b => snd (subtract self a b)
  | CallGetLastResult => snd (get_last_result self)
  end.

(** The instance after a sequence of calls on a fresh one. *)
Definition after (calls : list call) : Calculator := foldl perform init calls.

(** The results of the additions and subtractions among the calls, oldest
    first. *)
Definition results (calls : list call) : list T :=
  omap (λ c, match c with
             | CallAdd a b => Some (add_op a b)
             | CallSubtract a b => Some (sub_op a b)
             | CallGetLastResult => None
             end) calls.

End Calculator.
Arguments Calculator T : clear implicits.
Arguments call T : clear implicits.

(** [str] of an [Optional[int]], as the f-string formats it. *)
Definition str_optional (r : option Z) : string :=
  match r with
  | Some i => str i
  | None => "None"
  end.

Definition main : proc unit :=
  let calc : Calculator Z := init in
  let '(r1, calc) := add calc 5 3 in
  print ("5 + 3 = " +:+ str r1) ;;
  let '(r2, calc) := subtract calc 10 4 in
  print ("10 - 4 = " +:+ str r2) ;;
  let '(r3, calc) := get_last_result calc in
  r3 ← lift r3;
  print ("Last result: " +:+ str_optional r3).

End CalculatorPy.

(** ** src/source/tests/files/python/invalid/bad_code.py *)

Module BadCodePy.
Import Py.

(** The text of the file. *)
Definition source_lines : list string :=
  [
    (*  1 *) "#!/usr/bin/env python3";
    (*  2 *) dq3 +:+ "This module contains deliberate PEP8 and type hint violations." +:+ dq3;
    (*  3 *) "import random, sys, os # Multiple imports on one line";
    (*  4 *) EmptyString;
    (*  5 *) "class badCalculator: # Class name should use CamelCase";
    (*  6 *) "    def __init__(self):";
    (*  7 *) "        self.history=[] # Missing spaces around operator";
    (*  8 *) "        ";
    (*  9 *) "    def Add(self, x, y): # Method should be lowercase";
    (* 10 *) "        # Missing type hints";
    (* 11 *) "        result=x+y # Missing spaces";
    (* 12 *) "        self.history.append(result)";
    (* 13 *) "        return result";
    (* 14 *) "    ";
    (* 15 *) "    def subtract( self, x , y ): # Inconsistent spacing";
    (* 16 *) "        " +:+ dq3 +:+ "Subtract two numbers.";
    (* 17 *) "        Args:";
    (* 18 *) "            x: First number";
    (* 19 *) "            y: Second number # Missing proper indentation";
    (* 20 *) "        Returns:";
    (* 21 *) "            Difference between x and y" +:+ dq3;
    (* 22 *) "        # Missing consistent docstring format";
    (* 23 *) "        result = x-y";
    (* 24 *) "        self.history.append(result)";
    (* 25 *) "        return result";
    (* 26 *) "    ";
    (* 27 *) "    def getHistory(self):";
    (* 28 *) "        for i in range(0,len(self.history)): # Unnecessary 0 in range";
    (* 29 *) "            print (i, self.history[i])        # Extra space after print";
    (* 30 *) "    ";
    (* 31 *) "    def process_input(self, value): # No type hints";
    (* 32 *) "        if value == None: return 0 # Should be 'is None', and statement on same line";
    (* 33 *) "        elif type(value) == str: # Should use isinstance";
    (* 34 *) "            try:";
    (* 35 *) "                return float(value)";
    (* 36 *) "            except:  # Bare except clause";
    (* 37 *) "                print (" +:+ dq +:+ "Error converting value" +:+ dq +:+ ")";
    (* 38 *) "                return None";
    (* 39 *) EmptyString;
    (* 40 *) EmptyString;
    (* 41 *) "# Extraneous whitespace at end of line ";
    (* 42 *) "def main(): ";
    (* 43 *) "    calc = badCalculator()";
    (* 44 *) "    print(" +:+ dq +:+ "5 + 3 =" +:+ dq +:+ ", calc.Add(5, 3)) # Should use f-string";
    (* 45 *) "    print(" +:+ dq +:+ "Last result:" +:+ dq +:+ ", calc.history[-1]) # Direct access to internals";
    (* 46 *) EmptyString;
    (* 47 *) "if __name__ == " +:+ dq +:+ "__main__" +:+ dq +:+ ":";
    (* 48 *) "    main()";
    (* 49 *) EmptyString;
    (* 50 *) EmptyString
  ].

(** The values [process_input] is followed on, and those it returns:
    [None], integers, floats and strings, the values of the builtin types.
    A [VStr] is a value whose type is [str] itself; a [VStrSubclass] is an
    instance of a class derived from [str] that adds nothing to it, such as
    [class Text(str): pass]. An object of a class with an [__eq__] of its
    own is not among them: on such an object the comparison of line 32 runs
    that method, which may return anything or raise, before the [try] is
    entered. *)
Inductive value : Type :=
| VNone
| VInt (i : Z)
| VFloat (x : float)
| VStr (s : string)
| VStrSubclass (cls : string) (s : string).

(** [value == None], on the values above: none of them but [None] equals
    [None], and the comparison of builtin values does not raise. *)
Definition eq_None (v : value) : bool :=
  match v with
  | VNone => true
  | _ => false
  end.

(** [type(value) == str] *)
Definition type_is_str (v : value) : bool :=
  match v with
  | VStr _ => true
  | _ => false
  end.

(** [isinstance(value, str)], the test that the comment on line 33 asks
    for: the value is a string. *)
Definition isinstance_str (v : value) : bool :=
  match v with
  | VStr _ | VStrSubclass _ _ => true
  | _ => false
  end.

Section badCalculator.
Context {T : Type} `{Number T}.

Record badCalculator : Type := { history : list T }.

Definition init : badCalculator := {| history := [] |}.

Definition Add (self : badCalculator) (x y : T) : T * badCalculator :=
  let result := add_op x y in
  (result, {| history := history self ++ [result] |}).

Definition subtract (self : badCalculator) (x y : T) : T * badCalculator :=
  let result := sub_op x y in
  (result, {| history := history self ++ [result] |}).

(** The builtin [float] on a [str], a parameter of the method: the number
    the text denotes, or the exception it raises. [Py.float_of_str] is the
    instance to run it with. *)
Variable to_float : string → outcome float.

(** [float(value)] *)
Definition float_of (v : value) : outcome float :=
  match v with
  | VStr s | VStrSubclass _ s => to_float s
  | VInt i => float_of_int i
  | VFloat x => Return x
  | VNone => Raise TypeError
  end.

(** [process_input]: the two branches of the [if], and the [None] that a
    function returns when it runs off its end. *)
Definition process_input (self : badCalculator) (v : value) : proc value :=
  if eq_None v then ret (VInt 0)
  else if type_is_str v then
    try_except
      (x ← lift (float_of v); ret (VFloat x))
      (print "Error converting value" ;; ret VNone)
  else ret VNone.

End badCalculator.
Arguments badCalculator T : clear implicits.

Definition main : proc unit :=
  let calc : badCalculator Z := init in
  let '(r, calc) := Add calc 5 3 in
  print_args ["5 + 3 ="; str r] ;;
  x ← lift (last_item (history calc));
  print_args ["Last result:"; str x].

Section getHistory.
Context {T : Type}.

(** [str] on an index and on an entry of the history, as [print] calls it:
    the text, or the exception [str] raises (on an integer with more digits
    than the interpreter converts, [ValueError]). Both are parameters. *)
Variable str_int : Z → outcome string.
Variable str_of : T → outcome string.


End getHistory.

End BadCodePy.

(** ** The style check the fixtures are written for *)

Module Style.
Import Py.

(** Modelled from the spec: the style-checking tool is not among the
    sources; the spec names the conventions the invalid fixture breaks as
    naming, spacing and bare exception clauses. What each of them asks for
    is read off the comments of the fixture itself: a class name in
    CamelCase, a method name in lower case, spaces around the assignment
    operator, no bare [except]. *)
Inductive rule : Type :=
| Naming
| Spacing
| BareExcept.

#[global] Instance rule_eq_dec : EqDecision rule.
Proof. solve_decision. Defined.

(** The lines of a text, each without its line feed. *)
Fixpoint split_lines (cs : list ascii) (cur : list ascii) : list (list ascii) :=
  match cs with
  | [] => match cur with [] => [] | _ => [reverse cur] end
  | c :: rest =>
      if Ascii.eqb c "010" then reverse cur :: split_lines rest []
      else split_lines rest (c :: cur)
  end.

Fixpoint lstrip (cs : list ascii) : list ascii :=
  match cs with
  | c :: rest => if Ascii.eqb c " " then lstrip rest else cs
  | [] => []
  end.

Fixpoint starts_with (p cs : list ascii) : bool :=
  match p, cs with
  | [], _ => true
  | a :: p', c :: cs' => Ascii.eqb a c && starts_with p' cs'
  | _ :: _, [] => false
  end.

Definition is_upper (c : ascii) : bool :=
  (65 <=? nat_of_ascii c)%nat && (nat_of_ascii c <=? 90)%nat.

(** The name a [class] or [def] statement introduces. *)
Fixpoint name_of (cs : list ascii) : list ascii :=
  match cs with
  | c :: rest =>
      if Ascii.eqb c "(" || Ascii.eqb c ":" || Ascii.eqb c " " then []
      else c :: name_of rest
  | [] => []
  end.

(** Modelled from the spec: the naming convention. A class name starts with
    a capital letter, a function name has no capital letter. *)
Definition breaks_naming (line : list ascii) : bool :=
  let l := lstrip line in
  if starts_with (list_ascii_of_string "class ") l then
    match name_of (drop 6 l) with
    | c :: _ => negb (is_upper c)
    | [] => false
    end
  else if starts_with (list_ascii_of_string "def ") l then
    existsb is_upper (name_of (drop 4 l))
  else false.

Definition joins_operator (c : ascii) : bool :=
  existsb (Ascii.eqb c) (list_ascii_of_string "=!<>+-*/%&|^@:").

(** An assignment sign outside brackets with no space on one of its sides;
    [prev] is the character before [cs], [depth] the bracket nesting. *)
Fixpoint tight_assignment (prev : ascii) (cs : list ascii) (depth : nat) : bool :=
  match cs with
  | [] => false
  | c :: rest =>
      let next := hd " "%char rest in
      if Ascii.eqb c "=" && Nat.eqb depth 0
         && negb (joins_operator prev) && negb (Ascii.eqb next "=")
         && negb (Ascii.eqb prev " " && Ascii.eqb next " ")
      then true
      else
        tight_assignment c rest
          (if is_closing c then Nat.pred depth
           else match closing_of c with Some _ => S depth | None => depth end)
  end.

(** Modelled from the spec: the spacing convention, one space on each side
    of an assignment. *)
Definition breaks_spacing (line : list ascii) : bool :=
  tight_assignment " " line 0.

(** Modelled from the spec: a bare exception clause. *)
Definition breaks_bare_except (line : list ascii) : bool :=
  starts_with (list_ascii_of_string "except:") (lstrip line).

Definition rules : list (rule * (list ascii → bool)) :=
  [(Naming, breaks_naming); (Spacing, breaks_spacing); (BareExcept, breaks_bare_except)].

Definition check_line (n : nat) (line : list ascii) : list (nat * rule) :=
  omap (λ '(r, breaks), if breaks line : bool then Some (n, r) else None) rules.

Fixpoint check_lines (n : nat) (lines : list (list ascii)) : list (nat * rule) :=
  match lines with
  | [] => []
  | l :: rest => check_line n l ++ check_lines (S n) rest
  end.

(** Modelled from the spec: the style check of a file, the list of the
    violations found with their line numbers; the file fails the check when
    the list is not empty. *)
Definition style_check (lines : list string) : list (nat * rule) :=
  check_lines 1 (split_lines (code_chars (text_of_lines lines) InCode) []).

Definition fails_style_check (lines : list string) : bool :=
  negb (bool_decide (style_check lines = [])).

End Style.


(** ** The four scripts as programs *)

Inductive script : Type :=
| valid_py
| test_py
| calculator_py
| bad_code_py.

(** The [if __name__ == __main__] block of each script; [fuel] is the depth
    allowed to the recursive functions. *)
Definition main_of (s : script) (fuel : nat) : Py.proc unit :=
  match s with
  | valid_py => ValidPy.main fuel
  | test_py => TestPy.main fuel
  | calculator_py => CalculatorPy.main
  | bad_code_py => BadCodePy.main
  end.

(** A run of a script in a world. *)
Definition interpret (s : script) (fuel : nat) (w : Py.world) : option (list Py.effect) :=
  Py.run_script (main_of s fuel) w.


(** A world with no arguments, no environment and no input. *)
Definition bare_world : Py.world := Py.World [] ∅ [].

(** A program that does look at its world, for comparison: it prints its
    first argument. *)
Definition echo_argument : Py.proc unit :=
  a ← Py.sys_argv 1; Py.print a.

(** ** Reference notions *)

(** The Fibonacci numbers. *)
Fixpoint fib (n : nat) : Z :=
  match n with
  | O => 0
  | S n' =>
      match n' with
      | O => 1
      | S n'' => fib n' + fib n''
      end
  end.

(** What [fib_memo] keeps true of the dictionary: it holds the two base
    cases, and every entry is a Fibonacci number at a natural index. *)
Definition memo_ok (memo : gmap Z Z) : Prop :=
  memo !! 0 = Some 0 ∧ memo !! 1 = Some 1 ∧
  ∀ k v, memo !! k = Some v → 0 ≤ k ∧ v = fib (Z.to_nat k).

(** The dictionary that holds the Fibonacci numbers of the indices from 0
    to [t], and nothing else. *)
Fixpoint memo_upto (t : nat) : gmap Z Z :=
  match t with
  | O => {[ 0 := 0 ]}
  | S t' => <[Z.of_nat t := fib t]> (memo_upto t')
  end.

(** The depth of calls that [fib_memo] needs for [n] on the dictionary up
    to [t]: one call when [n] is in it, one more per missing index
    otherwise. *)
Definition depth_from (t : nat) (n : Z) : Z :=
  if n <=? Z.of_nat t then 1 else n - Z.of_nat t + 1.

(** * Properties *)

(** ** [fibonacci] *)

Lemma fib_step (n : Z) :
  2 ≤ n → fib (Z.to_nat n) = fib (Z.to_nat (n - 1)) + fib (Z.to_nat (n - 2)).
Proof.
  intros Hn.
  replace (Z.to_nat n) with (S (S (Z.to_nat (n - 2)))) by lia.
  replace (Z.to_nat (n - 1)) with (S (Z.to_nat (n - 2))) by lia.
  reflexivity.
Qed.

Lemma memo_ok_initial : memo_ok {[ 0 := 0; 1 := 1 ]}.
Proof.
  split; [reflexivity|]. split; [reflexivity|].
  intros k v Hk.
  destruct (decide (k = 0)) as [->|H0].
  { rewrite lookup_insert_eq in Hk. injection Hk as <-. split; [lia|reflexivity]. }
  rewrite lookup_insert_ne in Hk by congruence.
  apply lookup_singleton_Some in Hk as [<- <-]. split; [lia|reflexivity].
Qed.

Lemma memo_ok_insert (memo : gmap Z Z) (n : Z) :
  memo_ok memo → 2 ≤ n → memo_ok (<[n := fib (Z.to_nat n)]> memo).
Proof.
  intros (H0 & H1 & Hall) Hn. split; [|split].
  - rewrite lookup_insert_ne by lia. exact H0.
  - rewrite lookup_insert_ne by lia. exact H1.
  - intros k v Hk. destruct (decide (k = n)) as [->|Hne].
    + rewrite lookup_insert_eq in Hk. injection Hk as <-. split; [lia|reflexivity].
    + rewrite lookup_insert_ne in Hk by congruence. apply (Hall _ _ Hk).
Qed.

(** With a budget above [n], [fib_memo] returns the [n]th Fibonacci number
    and leaves a dictionary that is still well formed. *)
Lemma fib_memo_returns (fuel : nat) :
  ∀ (n : Z) (memo : gmap Z Z),
    memo_ok memo → 0 ≤ n → (Z.to_nat n < fuel)%nat →
    ∃ memo', ValidPy.fib_memo fuel n memo = Some (fib (Z.to_nat n), memo')
             ∧ memo_ok memo'.
Proof.
  induction fuel as [|fuel IH]; intros n memo Hok Hn Hfuel; [lia|].
  simpl. destruct (memo !! n) as [v|] eqn:Hlook.
  - exists memo. split; [|exact Hok].
    destruct Hok as (_ & _ & Hall). destruct (Hall _ _ Hlook) as [_ ->].
    reflexivity.
  - assert (2 ≤ n) as Hn2.
    { destruct Hok as (H0 & H1 & _).
      destruct (decide (n = 0)) as [->|]; [congruence|].
      destruct (decide (n = 1)) as [->|]; [congruence|]. lia. }
    destruct (IH (n - 1) memo Hok) as (memo1 & -> & Hok1); [lia|lia|].
    destruct (IH (n - 2) memo1 Hok1) as (memo2 & -> & Hok2); [lia|lia|].
    rewrite lookup_insert_eq. rewrite <- fib_step by exact Hn2.
    eexists. split; [reflexivity|]. apply memo_ok_insert; assumption.
Qed.

(** Below zero no budget is enough: every call meets a key that is not in
    the dictionary and recurses further down. *)
Lemma fib_memo_negative (fuel : nat) :
  ∀ (n : Z) (memo : gmap Z Z),
    memo_ok memo → n < 0 → ValidPy.fib_memo fuel n memo = None.
Proof.
  induction fuel as [|fuel IH]; intros n memo Hok Hn; [reflexivity|].
  simpl. destruct (memo !! n) as [v|] eqn:Hlook.
  - destruct Hok as (_ & _ & Hall). destruct (Hall _ _ Hlook). lia.
  - rewrite IH by (assumption || lia). reflexivity.
Qed.

Lemma fibonacci_returns (fuel : nat) (n : Z) :
  0 ≤ n → (Z.to_nat n < fuel)%nat →
  ValidPy.fibonacci fuel n = Some (fib (Z.to_nat n)).
Proof.
  intros Hn Hfuel. unfold ValidPy.fibonacci.
  destruct (fib_memo_returns fuel n _ memo_ok_initial Hn Hfuel) as (memo' & -> & _).
  reflexivity.
Qed.

(** C2: [fibonacci(0) = 0], [fibonacci(1) = 1] and [fibonacci(10) = 55], with
    any recursion budget that covers the depth of the call. *)
Theorem fibonacci_values (k : nat) :
  ValidPy.fibonacci (1 + k) 0 = Some 0 ∧
  ValidPy.fibonacci (1 + k) 1 = Some 1 ∧
  ValidPy.fibonacci (11 + k) 10 = Some 55.
Proof.
  split; [|split].
  - apply (fibonacci_returns (1 + k) 0); lia.
  - reflexivity.
  - apply (fibonacci_returns (11 + k) 10); lia.
Qed.

(** C8: for every integer [n >= 0] the memoized recursion terminates, within
    a depth of [n + 1] calls, and returns the [n]th Fibonacci number; for
    [n < 0] it never reaches the memoized base cases, whatever the budget. *)
Theorem fibonacci_terminates (n : Z) :
  (0 ≤ n →
   ∀ fuel, (Z.to_nat n < fuel)%nat →
           ValidPy.fibonacci fuel n = Some (fib (Z.to_nat n))) ∧
  (n < 0 → ∀ fuel, ValidPy.fibonacci fuel n = None).
Proof.
  split.
  - intros Hn fuel Hfuel. apply fibonacci_returns; assumption.
  - intros Hn fuel. unfold ValidPy.fibonacci.
    rewrite fib_memo_negative by (apply memo_ok_initial || exact Hn).
    reflexivity.
Qed.

Lemma fibonacci_terminates_witness :
  ValidPy.fibonacci 31 30 = Some 832040 ∧ ValidPy.fibonacci 7 (-3) = None.
Proof.
  split.
  - apply (proj1 (fibonacci_terminates 30)); lia.
  - apply (proj2 (fibonacci_terminates (-3))); lia.
Defined.

(** ** Square roots through binary64 *)

Lemma digits2_pos_log2 (p : positive) :
  Z.pos (digits2_pos p) = Z.log2 (Z.pos p) + 1.
Proof.
  induction p as [p IH|p IH|]; simpl digits2_pos.
  - rewrite Pos2Z.inj_succ, IH.
    change (Z.pos p~1) with (2 * Z.pos p + 1).
    rewrite Z.log2_succ_double by lia. lia.
  - rewrite Pos2Z.inj_succ, IH.
    change (Z.pos p~0) with (2 * Z.pos p).
    rewrite Z.log2_double by lia. lia.
  - reflexivity.
Qed.

Lemma digits2_pos_bounds (p : positive) (d : Z) :
  2 ^ (d - 1) ≤ Z.pos p < 2 ^ d → 0 < d → Z.pos (digits2_pos p) = d.
Proof.
  intros Hp Hd. rewrite digits2_pos_log2.
  rewrite (Z.log2_unique (Z.pos p) (d - 1)); [lia|lia|].
  replace (Z.succ (d - 1)) with d by lia. exact Hp.
Qed.

Lemma iter_xO_pow (p k : positive) :
  Z.pos (Pos.iter xO p k) = Z.pos p * 2 ^ Z.pos k.
Proof.
  revert p. induction k as [|k IH] using Pos.peano_ind; intros p.
  - simpl. lia.
  - rewrite Pos.iter_succ. rewrite Pos2Z.inj_succ, Z.pow_succ_r by lia.
    change (Z.pos (Pos.iter xO p k)~0) with (2 * Z.pos (Pos.iter xO p k)).
    rewrite IH. lia.
Qed.

Lemma loc_of_shr_record_of_loc (m : Z) (l : location) :
  loc_of_shr_record (shr_record_of_loc m l) = l
  ∧ shr_m (shr_record_of_loc m l) = m.
Proof. destruct l as [|[]]; split; reflexivity. Qed.

(** A mantissa of 53 bits is in place: nothing is shifted out of it. *)
Lemma shr_fexp_53 (m : positive) (e : Z) (l : location) :
  2 ^ 52 ≤ Z.pos m < 2 ^ 53 → -1074 ≤ e →
  shr_fexp 53 1024 (Z.pos m) e l = (shr_record_of_loc (Z.pos m) l, e).
Proof.
  intros Hm He. unfold shr_fexp. cbn [Zdigits2].
  rewrite (digits2_pos_bounds m 53) by lia.
  unfold fexp, emin.
  replace (Z.max (53 + e - 53) (3 - 1024 - 53) - e) with 0 by lia.
  reflexivity.
Qed.

(** Rounding a mantissa of 53 bits: the result is the mantissa or its
    successor, at an exponent that grows by one when the successor needs a
    54th bit; it is an infinity when that exponent is above 971. *)
Lemma binary_round_aux_53 (m : positive) (e : Z) (l : location) :
  2 ^ 52 ≤ Z.pos m < 2 ^ 53 → -1074 ≤ e →
  ∃ m' k, binary_round_aux 53 1024 false (Z.pos m) e l
          = (if Z.leb (e + k) 971 then S754_finite false m' (e + k)
             else S754_infinity false)
          ∧ 0 ≤ k ≤ 1
          ∧ Z.pos m ≤ Z.pos m' * 2 ^ k ≤ Z.pos m + 1.
Proof.
  intros Hm He. unfold binary_round_aux.
  rewrite shr_fexp_53 by assumption.
  destruct (loc_of_shr_record_of_loc (Z.pos m) l) as [-> ->].
  assert (round_nearest_even (Z.pos m) l = Z.pos m
          ∨ round_nearest_even (Z.pos m) l = Z.pos (m + 1)) as [-> | ->].
  { destruct l as [|[]]; cbn [round_nearest_even];
      try (left; reflexivity); try (right; reflexivity).
    destruct (Z.even (Z.pos m)); [left|right]; reflexivity. }
  - rewrite shr_fexp_53 by assumption. cbn [shr_record_of_loc shr_m].
    exists m, 0. replace (e + 0) with e by lia.
    split; [reflexivity|]. lia.
  - destruct (decide (Z.pos (m + 1) < 2 ^ 53)) as [Hlt|Hge].
    + rewrite shr_fexp_53 by lia. cbn [shr_record_of_loc shr_m].
      exists (m + 1)%positive, 0. replace (e + 0) with e by lia.
      split; [reflexivity|]. lia.
    + assert ((m + 1)%positive = 9007199254740992%positive) as -> by lia.
      exists 4503599627370496%positive, 1.
      unfold shr_fexp. change (Zdigits2 9007199254740992) with 54.
      unfold fexp, emin.
      replace (Z.max (54 + e - 53) (3 - 1024 - 53) - e) with 1 by lia.
      split; [reflexivity|]. lia.
Qed.

Lemma binary_round_aux_53_exact (m : positive) (e : Z) :
  2 ^ 52 ≤ Z.pos m < 2 ^ 53 → -1074 ≤ e ≤ 971 →
  binary_round_aux 53 1024 false (Z.pos m) e loc_Exact = S754_finite false m e.
Proof.
  intros Hm He. unfold binary_round_aux.
  rewrite shr_fexp_53 by (assumption || lia).
  cbn [shr_record_of_loc shr_m loc_of_shr_record round_nearest_even].
  rewrite shr_fexp_53 by (assumption || lia).
  cbn [shr_record_of_loc shr_m].
  assert (Z.leb e (1024 - 53) = true) as -> by (apply Z.leb_le; lia).
  reflexivity.
Qed.

(** A right shift by one bit takes one binary digit away. *)
Lemma shr_1_digits (r : shr_record) :
  0 ≤ shr_m r →
  0 ≤ shr_m (shr_1 r)
  ∧ Zdigits2 (shr_m (shr_1 r)) = Z.max 0 (Zdigits2 (shr_m r) - 1).
Proof.
  destruct r as [[|[p|p|]|p] b s]; simpl; try lia.
Qed.

Lemma iter_shr_1_digits (k : positive) :
  ∀ r : shr_record,
    0 ≤ shr_m r →
    0 ≤ shr_m (SpecFloat.iter_pos shr_1 k r)
    ∧ Zdigits2 (shr_m (SpecFloat.iter_pos shr_1 k r))
      = Z.max 0 (Zdigits2 (shr_m r) - Z.pos k).
Proof.
  induction k as [k IH|k IH|]; intros r Hr; simpl SpecFloat.iter_pos.
  - destruct (shr_1_digits r Hr) as [H1 D1].
    destruct (IH _ H1) as [H2 D2]. destruct (IH _ H2) as [H3 D3].
    split; [exact H3|]. rewrite D3, D2, D1. lia.
  - destruct (IH _ Hr) as [H2 D2]. destruct (IH _ H2) as [H3 D3].
    split; [exact H3|]. rewrite D3, D2. lia.
  - apply shr_1_digits. exact Hr.
Qed.

(** Rounding a mantissa of more than 53 bits at exponent 0 is rounding its
    53 leading bits at the exponent that the shift leaves. *)
Lemma binary_round_aux_large (p : positive) :
  53 < Z.pos (digits2_pos p) →
  ∃ m l, binary_round_aux 53 1024 false (Z.pos p) 0 loc_Exact
         = binary_round_aux 53 1024 false (Z.pos m) (Z.pos (digits2_pos p) - 53) l
         ∧ 2 ^ 52 ≤ Z.pos m < 2 ^ 53.
Proof.
  intros Hd. set (d := Z.pos (digits2_pos p)) in *.
  destruct (d - 53) as [|k|k] eqn:Hk; [lia| |lia].
  set (mrs := SpecFloat.iter_pos shr_1 k
                {| shr_m := Z.pos p; shr_r := false; shr_s := false |}).
  assert (shr_fexp 53 1024 (Z.pos p) 0 loc_Exact = (mrs, Z.pos k)) as Hfirst.
  { unfold shr_fexp. cbn [Zdigits2]. fold d. unfold fexp, emin.
    replace (Z.max (d + 0 - 53) (3 - 1024 - 53) - 0) with (Z.pos k) by lia.
    reflexivity. }
  destruct (iter_shr_1_digits k
              {| shr_m := Z.pos p; shr_r := false; shr_s := false |})
    as [Hpos Hdig]; [simpl; lia|].
  fold mrs in Hpos, Hdig. cbn [shr_m Zdigits2] in Hdig. fold d in Hdig.
  replace (Z.max 0 (d - Z.pos k)) with 53 in Hdig by lia.
  destruct (shr_m mrs) as [|m|m] eqn:Hm; [discriminate Hdig| |lia].
  cbn [Zdigits2] in Hdig.
  assert (2 ^ 52 ≤ Z.pos m < 2 ^ 53) as Hrange.
  { pose proof (digits2_pos_log2 m) as Hlog.
    pose proof (Z.log2_spec (Z.pos m) ltac:(lia)) as Hspec.
    replace (Z.log2 (Z.pos m)) with 52 in Hspec by lia. exact Hspec. }
  exists m, (loc_of_shr_record mrs). split; [|exact Hrange].
  unfold binary_round_aux. rewrite Hfirst.
  rewrite shr_fexp_53 by (exact Hrange || lia).
  destruct (loc_of_shr_record_of_loc (Z.pos m) (loc_of_shr_record mrs)) as [-> ->].
  rewrite Hm. reflexivity.
Qed.

(** [float(num)] is exact below [2^53]: the mantissa is [num] shifted up to
    53 bits. *)
Lemma float_of_int_exact (num : Z) :
  1 ≤ num < 2 ^ 53 →
  ∃ m e, Py.float_of_int num = Py.Return (S754_finite false m e)
         ∧ 2 ^ 52 ≤ Z.pos m < 2 ^ 53
         ∧ -52 ≤ e ≤ 0
         ∧ Z.pos m = num * 2 ^ (- e).
Proof.
  intros Hnum. destruct num as [|p|p]; [lia| |lia].
  unfold Py.float_of_int, binary_normalize, binary_round.
  pose proof (digits2_pos_log2 p) as Hd.
  pose proof (Z.log2_spec (Z.pos p) ltac:(lia)) as Hlog.
  set (d := Z.pos (digits2_pos p)) in *.
  assert (1 ≤ d ≤ 53) as Hd53.
  { pose proof (Z.log2_nonneg (Z.pos p)).
    assert (Z.log2 (Z.pos p) < 53); [|lia].
    apply Z.log2_lt_pow2; lia. }
  replace (Z.succ (Z.log2 (Z.pos p))) with d in Hlog by lia.
  replace (Z.log2 (Z.pos p)) with (d - 1) in Hlog by lia.
  unfold fexp, emin.
  replace (Z.max (d + 0 - 53) (3 - 1024 - 53)) with (d - 53) by lia.
  unfold shl_align.
  destruct (d - 53 - 0) as [|k|k] eqn:Hk; [|lia|].
  - assert (d = 53) as Hd' by lia. rewrite Hd' in Hlog.
    rewrite binary_round_aux_53_exact by (simpl in *; lia).
    exists p, 0. split; [reflexivity|]. simpl in *. lia.
  - assert (Z.pos k = 53 - d) as Hk' by lia.
    assert (2 ^ 52 ≤ Z.pos (Pos.iter xO p k) < 2 ^ 53) as Hm.
    { rewrite iter_xO_pow, Hk'.
      replace (2 ^ 52) with (2 ^ (d - 1) * 2 ^ (53 - d))
        by (rewrite <- Z.pow_add_r by lia; f_equal; lia).
      replace (2 ^ 53) with (2 ^ d * 2 ^ (53 - d))
        by (rewrite <- Z.pow_add_r by lia; f_equal; lia).
      assert (0 < 2 ^ (53 - d)) by (apply Z.pow_pos_nonneg; lia).
      nia. }
    rewrite binary_round_aux_53_exact by lia.
    exists (Pos.iter xO p k), (d - 53). split; [reflexivity|].
    split; [exact Hm|]. split; [lia|].
    rewrite iter_xO_pow, Hk'. f_equal. f_equal. lia.
Qed.

(** The integer square root of a number scaled by an even power of two. *)
Lemma sqrt_scaled_bounds (num T q rem : Z) :
  0 ≤ num → 0 < T → 0 ≤ q →
  num * (T * T) = q * q + rem → 0 ≤ rem ≤ 2 * q →
  Z.sqrt num * T ≤ q ∧ q + 1 ≤ (Z.sqrt num + 1) * T.
Proof.
  intros Hnum HT Hq Heq Hrem.
  pose proof (Z.sqrt_spec num Hnum) as Hs. cbv zeta in Hs.
  pose proof (Z.sqrt_nonneg num) as Hs0.
  set (K := Z.sqrt num) in *.
  replace (Z.succ K * Z.succ K) with ((K + 1) * (K + 1)) in Hs by lia.
  split.
  - destruct (Z.le_gt_cases (K * T) q) as [|Hlt]; [assumption|exfalso].
    assert ((q + 1) * (q + 1) ≤ (K * T) * (K * T)) by nia.
    assert (K * K * (T * T) ≤ num * (T * T)) by nia.
    nia.
  - destruct (Z.le_gt_cases (q + 1) ((K + 1) * T)) as [|Hlt]; [assumption|exfalso].
    assert (((K + 1) * T) * ((K + 1) * T) ≤ q * q) by nia.
    assert (num * (T * T) < (K + 1) * (K + 1) * (T * T)) by nia.
    nia.
Qed.

(** With the correctly rounded root, [int(x ** 0.5)] on a float [x] that
    holds the integer [num] exactly is the integer square root of [num], or
    one more. *)
Lemma int_of_pow_half (m : positive) (e num : Z) :
  2 ^ 52 ≤ Z.pos m < 2 ^ 53 → -52 ≤ e ≤ 0 →
  Z.pos m = num * 2 ^ (- e) →
  ∃ r, Py.int_of_float (Py.pow_half (S754_finite false m e)) = Py.Return r
       ∧ Z.sqrt num ≤ r ≤ Z.sqrt num + 1.
Proof.
  intros Hm He Hnum.
  assert (0 < 2 ^ (- e)) as Hpow by (apply Z.pow_pos_nonneg; lia).
  assert (0 < num) as Hnum0 by nia.
  unfold Py.pow_half, SFsqrt, SFsqrt_core_binary. simpl Zdigits2.
  rewrite (digits2_pos_bounds m 53) by lia.
  rewrite !Z.div2_div. unfold fexp, emin.
  set (c := (53 + e + 1) / 2).
  assert (1 ≤ c ≤ 27) as Hc by (unfold c; Z.to_euclidean_division_equations; lia).
  replace (Z.min (Z.max (c - 53) (3 - 1024 - 53)) (e / 2)) with (c - 53)
    by (unfold c; Z.to_euclidean_division_equations; lia).
  set (t := 53 - c).
  assert (e - 2 * (c - 53) = e + 2 * t) as Hs by (unfold t; lia).
  assert (52 ≤ e + 2 * t ≤ 53) as Hs' by (unfold t, c; Z.to_euclidean_division_equations; lia).
  destruct (e - 2 * (c - 53)) as [|s|s] eqn:Hsh; [lia| |lia].
  rewrite Z.shiftl_mul_pow2 by lia. rewrite Hs.
  set (T := 2 ^ t).
  assert (0 < T) as HT by (apply Z.pow_pos_nonneg; unfold t; lia).
  assert (Z.pos m * 2 ^ (e + 2 * t) = num * (T * T)) as Hscaled.
  { rewrite Hnum. unfold T. rewrite <- Z.mul_assoc, <- !Z.pow_add_r by (unfold t; lia).
    f_equal. f_equal. lia. }
  rewrite Hscaled.
  pose proof (Z.sqrtrem_spec (num * (T * T)) ltac:(nia)) as Hspec.
  destruct (Z.sqrtrem (num * (T * T))) as [q rem]. destruct Hspec as [Heq Hrem].
  assert (2 ^ 52 ≤ q < 2 ^ 53) as Hq.
  { assert (2 ^ 104 ≤ num * (T * T) < 2 ^ 106) as Hrange.
    { rewrite <- Hscaled.
      assert (2 ^ 52 ≤ 2 ^ (e + 2 * t)) by (apply Z.pow_le_mono_r; lia).
      assert (2 ^ (e + 2 * t) ≤ 2 ^ 53) by (apply Z.pow_le_mono_r; lia).
      change (2 ^ 104) with (2 ^ 52 * 2 ^ 52). change (2 ^ 106) with (2 ^ 53 * 2 ^ 53).
      nia. }
    change (2 ^ 104) with (2 ^ 52 * 2 ^ 52) in Hrange.
    change (2 ^ 106) with (2 ^ 53 * 2 ^ 53) in Hrange.
    nia. }
  destruct q as [|q|q]; [lia| |lia].
  destruct (binary_round_aux_53 q (c - 53)
              (if Z.eqb rem 0 then loc_Exact
               else loc_Inexact (if Z.leb rem (Z.pos q) then Lt else Gt)) Hq)
    as (m' & k & -> & Hk & Hv); [lia|].
  assert (Z.leb (c - 53 + k) 971 = true) as -> by (apply Z.leb_le; lia).
  cbn [Py.int_of_float cond_Zopp]. eexists. split; [reflexivity|].
  rewrite Z.shiftl_div_pow2 by lia.
  destruct (sqrt_scaled_bounds num T (Z.pos q) rem) as [Hlo Hhi]; try lia.
  assert (Z.pos m' / 2 ^ (- (c - 53 + k)) = (Z.pos m' * 2 ^ k) / T) as ->.
  { assert (k = 0 ∨ k = 1) as [-> | ->] by lia.
    - change (2 ^ 0) with 1. rewrite Z.mul_1_r. unfold T, t. do 2 f_equal. lia.
    - unfold T. replace t with (1 + (- (c - 53 + 1))) by (unfold t; lia).
      rewrite Z.pow_add_r by (unfold t in *; lia).
      rewrite (Z.mul_comm (Z.pos m')), Z.div_mul_cancel_l; [reflexivity| |lia].
      apply Z.pow_nonzero; lia. }
  split.
  - apply Z.div_le_lower_bound; [exact HT|]. nia.
  - apply Z.div_le_upper_bound; [exact HT|]. nia.
Qed.

(** [float(num)] overflows from [2^1024] on. *)
Lemma float_of_int_overflow (num : Z) :
  2 ^ 1024 ≤ num → Py.float_of_int num = Py.Raise Py.OverflowError.
Proof.
  intros Hnum.
  assert (0 < 2 ^ 1024) by (apply Z.pow_pos_nonneg; lia).
  destruct num as [|p|p]; [lia| |lia].
  unfold Py.float_of_int, binary_normalize, binary_round.
  pose proof (digits2_pos_log2 p) as Hd.
  assert (1024 ≤ Z.log2 (Z.pos p)) as Hlog by (apply Z.log2_le_pow2; lia).
  set (d := Z.pos (digits2_pos p)) in *.
  unfold fexp, emin.
  replace (Z.max (d + 0 - 53) (3 - 1024 - 53)) with (d - 53) by lia.
  unfold shl_align.
  destruct (d - 53 - 0) as [|k|k] eqn:Hk; [lia| |lia].
  destruct (binary_round_aux_large p) as (m & l & -> & Hm); [fold d; lia|].
  fold d.
  destruct (binary_round_aux_53 m (d - 53) l Hm) as (m' & j & -> & Hj & _); [lia|].
  assert (Z.leb (d - 53 + j) 971 = false) as -> by (apply Z.leb_gt; lia).
  reflexivity.
Qed.

(** With the correctly rounded root the bound [int(num ** 0.5)] is the
    integer square root or one more on every integer from 1 up to
    [2 ** 53]: there is a power function with which the bound is good on
    that whole range. Of the power function of the C library this says
    nothing. *)
Lemma int_sqrt_bounds (num : Z) :
  1 ≤ num < 2 ^ 53 →
  ∃ r, Py.int_sqrt num = Py.Return r ∧ Z.sqrt num ≤ r ≤ Z.sqrt num + 1.
Proof.
  intros Hnum. unfold Py.int_sqrt, Py.int_sqrt_with.
  destruct (float_of_int_exact num Hnum) as (m & e & -> & Hm & He & Hv).
  apply (int_of_pow_half m e num Hm He Hv).
Qed.

(** ** [is_prime] *)

(** The [is_prime] of [src/test.py] is the one of [valid.py], whatever the
    power function. *)
Lemma test_is_prime_same (pow : Py.float → Py.float) (num : Z) :
  TestPy.is_prime_with pow num = ValidPy.is_prime_with pow num.
Proof.
  assert (∀ l, TestPy.no_divisor num l = ValidPy.no_divisor num l) as Hsame.
  { induction l as [|i l IH]; simpl; [reflexivity|]. rewrite IH. reflexivity. }
  unfold TestPy.is_prime_with, ValidPy.is_prime_with.
  destruct (num <? 2); [reflexivity|].
  destruct (Py.int_sqrt_with pow num) as [r|e]; [rewrite Hsame|]; reflexivity.
Qed.

Lemma no_divisor_true (num : Z) (l : list Z) :
  ValidPy.no_divisor num l = true ↔ ∀ i, i ∈ l → num `mod` i ≠ 0.
Proof.
  induction l as [|a l IH]; simpl.
  - split; [|reflexivity]. intros _ i Hi. inversion Hi.
  - destruct (Z.eqb_spec (num `mod` a) 0) as [Heq|Hne].
    + split; [discriminate|]. intros Hall. exfalso. apply (Hall a); [left|exact Heq].
    + rewrite IH. split.
      * intros Hall i Hi. apply elem_of_cons in Hi as [->|Hi]; [exact Hne|].
        apply Hall. exact Hi.
      * intros Hall i Hi. apply Hall. right. exact Hi.
Qed.

(** Trial division up to a bound between the integer square root and the
    number itself decides primality. *)
Lemma trial_division_prime (num r : Z) :
  2 ≤ num → Z.sqrt num ≤ r < num →
  (∀ i, 2 ≤ i ≤ r → num `mod` i ≠ 0) ↔ Z.prime num.
Proof.
  intros Hnum [Hlo Hhi]. unfold Z.prime. split.
  - intros Hall. split; [lia|]. intros n Hn [c Hc].
    assert (1 < c < num) as Hcn by nia.
    destruct (Z.le_ge_cases n c) as [Hle|Hge].
    + apply (Hall n).
      * split; [lia|]. apply Z.le_trans with (Z.sqrt num); [|exact Hlo].
        apply Z.sqrt_le_square; nia.
      * rewrite Hc. apply Z.mod_mul. lia.
    + apply (Hall c).
      * split; [lia|]. apply Z.le_trans with (Z.sqrt num); [|exact Hlo].
        apply Z.sqrt_le_square; nia.
      * rewrite Hc, Z.mul_comm. apply Z.mod_mul. lia.
  - intros [_ Hprime] i Hi Hmod. apply (Hprime i); [lia|].
    apply Z.mod_divide; [lia|exact Hmod].
Qed.


(** The three cases of [is_prime], whatever the power function [pow] is:
    below 2 the answer is [False] and [pow] is not called; when the bound
    [int(num ** 0.5)] comes out as an [r] from the integer square root on
    and below [num], the loop decides primality; from [2 ** 1024] on the
    conversion of [num] to a float raises before [pow] is called. *)
Lemma is_prime_with_cases (pow : Py.float → Py.float) (num : Z) :
  (num < 2 → ValidPy.is_prime_with pow num = Py.Return false)
  ∧ (∀ r, 2 ≤ num → Py.int_sqrt_with pow num = Py.Return r →
          Z.sqrt num ≤ r < num →
          ∃ b, ValidPy.is_prime_with pow num = Py.Return b
               ∧ (b = true ↔ Z.prime num))
  ∧ (2 ^ 1024 ≤ num → ValidPy.is_prime_with pow num = Py.Raise Py.OverflowError).
Proof.
  split; [|split].
  - intros Hlt. unfold ValidPy.is_prime_with.
    destruct (Z.ltb_spec num 2); [reflexivity|lia].
  - intros r Hnum Hr Hbound. unfold ValidPy.is_prime_with.
    destruct (Z.ltb_spec num 2); [lia|]. rewrite Hr.
    eexists. split; [reflexivity|].
    rewrite no_divisor_true. rewrite <- (trial_division_prime num r Hnum Hbound).
    unfold Py.range. split.
    + intros Hall i Hi. apply Hall. apply elem_of_seqZ. lia.
    + intros Hall i Hi. apply Hall. apply elem_of_seqZ in Hi. lia.
  - intros Hnum. unfold ValidPy.is_prime_with, Py.int_sqrt_with.
    assert (0 < 2 ^ 1024) by (apply Z.pow_pos_nonneg; lia).
    destruct (Z.ltb_spec num 2); [lia|].
    rewrite float_of_int_overflow by exact Hnum. reflexivity.
Qed.

(** Above [2 ** 53] the conversion to float rounds, and the bound can exceed
    the integer square root even with the correctly rounded root. *)
Example int_sqrt_rounds_up :
  Py.int_sqrt (2 ^ 60 - 1) = Py.Return (2 ^ 30) ∧ Z.sqrt (2 ^ 60 - 1) = 2 ^ 30 - 1.
Proof. vm_compute. split; reflexivity. Qed.




(** ** [Calculator] *)

Lemma last_item_last {A} (l : list A) :
  l ≠ [] → ∃ x, last l = Some x ∧ Py.last_item l = Py.Return x.
Proof.
  intros Hne. unfold Py.last_item.
  destruct l as [|y l]; [congruence|].
  assert ((Z.of_nat (length (y :: l)) - 1 <? 0) = false) as ->
    by (apply Z.ltb_ge; simpl; lia).
  replace (Z.to_nat (Z.of_nat (length (y :: l)) - 1)) with (pred (length (y :: l)))
    by (simpl; lia).
  rewrite <- last_lookup.
  destruct (last (y :: l)) as [x|] eqn:Hlast.
  - exists x. split; reflexivity.
  - apply last_None in Hlast. discriminate.
Qed.

Lemma history_foldl {T} `{Number T} (calls : list (CalculatorPy.call T)) :
  ∀ self : CalculatorPy.Calculator T,
    CalculatorPy.history (foldl CalculatorPy.perform self calls)
    = CalculatorPy.history self ++ CalculatorPy.results calls.
Proof.
  induction calls as [|c calls IH]; intros self; simpl.
  - rewrite app_nil_r. reflexivity.
  - rewrite IH. destruct c as [a b|a b|]; simpl.
    + rewrite <- app_assoc. reflexivity.
    + rewrite <- app_assoc. reflexivity.
    + unfold CalculatorPy.get_last_result.
      destruct (CalculatorPy.history self) eqn:Hh; simpl; [rewrite Hh; reflexivity|].
      destruct (Py.last_item _); simpl; rewrite Hh; reflexivity.
Qed.

Lemma results_nil {T} `{Number T} (calls : list (CalculatorPy.call T)) :
  CalculatorPy.results calls = []
  ↔ Forall (λ c, c = CalculatorPy.CallGetLastResult) calls.
Proof.
  induction calls as [|c calls IH].
  - split; [constructor|reflexivity].
  - unfold CalculatorPy.results in *. destruct c as [a b|a b|]; simpl.
    + split; [discriminate|]. intros Hall. inversion Hall. discriminate.
    + split; [discriminate|]. intros Hall. inversion Hall. discriminate.
    + rewrite IH. split.
      * intros Hall. constructor; [reflexivity|exact Hall].
      * intros Hall. inversion Hall. assumption.
Qed.

(** The class at floats: 1.5 + 2.25 is 3.75, and the history holds it. *)
Example add_on_floats :
  let x := binary_normalize 53 1024 3 (-1) false in
  let y := binary_normalize 53 1024 9 (-2) false in
  CalculatorPy.add CalculatorPy.init x y
  = (binary_normalize 53 1024 15 (-2) false,
     {| CalculatorPy.history := [binary_normalize 53 1024 15 (-2) false] |}).
Proof. vm_compute. reflexivity. Qed.

(** C6: on every instance and for all numbers [a] and [b] (floats with their
    binary64 sum and difference, by the instance [float_number]), [add]
    returns [a + b] and leaves the history with [a + b] appended as its one
    new last element, every earlier entry in place; [subtract] does the same
    with [a - b]. *)
Theorem add_subtract_append {T} `{Number T}
    (self : CalculatorPy.Calculator T) (a b : T) :
  let after_add := CalculatorPy.add self a b in
  let after_sub := CalculatorPy.subtract self a b in
  (fst after_add = add_op a b
   ∧ CalculatorPy.history (snd after_add) = CalculatorPy.history self ++ [add_op a b]
   ∧ (∀ i x, CalculatorPy.history self !! i = Some x →
             CalculatorPy.history (snd after_add) !! i = Some x)
   ∧ last (CalculatorPy.history (snd after_add)) = Some (add_op a b))
  ∧
  (fst after_sub = sub_op a b
   ∧ CalculatorPy.history (snd after_sub) = CalculatorPy.history self ++ [sub_op a b]
   ∧ (∀ i x, CalculatorPy.history self !! i = Some x →
             CalculatorPy.history (snd after_sub) !! i = Some x)
   ∧ last (CalculatorPy.history (snd after_sub)) = Some (sub_op a b)).
Proof.
  simpl. split; (split; [reflexivity|]; split; [reflexivity|]; split).
  - intros i x Hi. apply lookup_app_l_Some. exact Hi.
  - apply last_snoc.
  - intros i x Hi. apply lookup_app_l_Some. exact Hi.
  - apply last_snoc.
Qed.

(** C7: [get_last_result] returns [None] exactly when the history is empty,
    otherwise the last element of the history; it leaves the instance as it
    was; and after any sequence of calls on a fresh instance the history is
    the list of the results of the additions and subtractions, so that the
    value returned is the result of the most recent one, and [None] when
    there was none, that is when every call was a [get_last_result]. *)
Theorem get_last_result_last {T} `{Number T}
    (self : CalculatorPy.Calculator T) (calls : list (CalculatorPy.call T)) :
  (fst (CalculatorPy.get_last_result self) = Py.Return None
   ↔ CalculatorPy.history self = [])
  ∧ fst (CalculatorPy.get_last_result self)
    = Py.Return (last (CalculatorPy.history self))
  ∧ snd (CalculatorPy.get_last_result self) = self
  ∧ CalculatorPy.history (CalculatorPy.after calls) = CalculatorPy.results calls
  ∧ fst (CalculatorPy.get_last_result (CalculatorPy.after calls))
    = Py.Return (last (CalculatorPy.results calls))
  ∧ (CalculatorPy.results calls = []
     ↔ Forall (λ c, c = CalculatorPy.CallGetLastResult) calls).
Proof.
  assert (∀ s : CalculatorPy.Calculator T,
            fst (CalculatorPy.get_last_result s)
            = Py.Return (last (CalculatorPy.history s))
            ∧ snd (CalculatorPy.get_last_result s) = s) as Hlast.
  { intros s. unfold CalculatorPy.get_last_result.
    destruct (CalculatorPy.history s) as [|y l] eqn:Hh; [split; reflexivity|].
    destruct (last_item_last (y :: l)) as (x & Hx & ->); [discriminate|].
    rewrite Hx. split; reflexivity. }
  assert (CalculatorPy.history (CalculatorPy.after calls)
          = CalculatorPy.results calls) as Hhist.
  { unfold CalculatorPy.after. rewrite history_foldl. reflexivity. }
  split; [|split; [|split; [|split; [|split]]]].
  - rewrite (proj1 (Hlast self)). split.
    + intros Heq. injection Heq as Heq. apply last_None in Heq. exact Heq.
    + intros ->. reflexivity.
  - apply Hlast.
  - apply Hlast.
  - exact Hhist.
  - rewrite (proj1 (Hlast _)), Hhist. reflexivity.
  - apply results_nil.
Qed.

(** ** [badCalculator.process_input] *)

(** The conversion on some texts. *)
Example float_of_str_samples :
  Py.float_of_str "2.5" = Py.Return (S754_finite false 5629499534213120 (-51))
  ∧ Py.float_of_str " 1_000 " = Py.Return (S754_finite false 8796093022208000 (-43))
  ∧ Py.float_of_str "-1e400" = Py.Return (S754_infinity true)
  ∧ Py.float_of_str "NaN" = Py.Return S754_nan
  ∧ Py.float_of_str "two and a half" = Py.Raise Py.ValueError
  ∧ Py.float_of_str "1__0" = Py.Raise Py.ValueError
  ∧ Py.float_of_str "0x10" = Py.Raise Py.ValueError
  ∧ Py.float_of_str EmptyString = Py.Raise Py.ValueError.
Proof. vm_compute. repeat split. Qed.

(** The guard of line 33 is on the type itself: an instance of a subclass
    of [str] is not converted, although [float] would return on its text. *)
Example process_input_guard_on_type :
  let v := BadCodePy.VStrSubclass "Text" "2.5" in
  BadCodePy.isinstance_str v = true
  ∧ BadCodePy.float_of Py.float_of_str v
    = Py.Return (S754_finite false 5629499534213120 (-51))
  ∧ BadCodePy.process_input Py.float_of_str (BadCodePy.init (T := Z)) v bare_world []
    = Some (Py.Return BadCodePy.VNone, []).
Proof. vm_compute. repeat split. Qed.

(** C5: whatever the builtin conversion [float] does on strings, on a
    string value on which the conversion raises, the bare [except] catches
    the exception and [process_input] prints its message and returns
    [None]; on a string value on which the conversion returns [x],
    [process_input] returns the float [x] and prints nothing; on [None] it
    returns the integer [0]. A string value is a value of type [str]. *)
Theorem process_input_sentinel {T} `{Number T}
    (to_float : string → Py.outcome Py.float)
    (self : BadCodePy.badCalculator T) (w : Py.world) (out : list string) :
  (∀ v e, BadCodePy.type_is_str v = true →
          BadCodePy.float_of to_float v = Py.Raise e →
          BadCodePy.process_input to_float self v w out
          = Some (Py.Return BadCodePy.VNone, out ++ ["Error converting value"]))
  ∧ (∀ v x, BadCodePy.type_is_str v = true →
            BadCodePy.float_of to_float v = Py.Return x →
            BadCodePy.process_input to_float self v w out
            = Some (Py.Return (BadCodePy.VFloat x), out))
  ∧ BadCodePy.process_input to_float self BadCodePy.VNone w out
    = Some (Py.Return (BadCodePy.VInt 0), out).
Proof.
  split; [|split].
  - intros v e Hstr Hv. destruct v; try discriminate Hstr.
    unfold BadCodePy.process_input, Py.try_except, Py.lift.
    cbn [BadCodePy.eq_None BadCodePy.type_is_str].
    unfold mbind, proc_bind, Py.bind. rewrite Hv. reflexivity.
  - intros v x Hstr Hv. destruct v; try discriminate Hstr.
    unfold BadCodePy.process_input, Py.try_except, Py.lift.
    cbn [BadCodePy.eq_None BadCodePy.type_is_str].
    unfold mbind, proc_bind, Py.bind. rewrite Hv. reflexivity.
  - reflexivity.
Qed.

Lemma process_input_sentinel_witness :
  BadCodePy.process_input Py.float_of_str
    (BadCodePy.init (T := Z)) (BadCodePy.VStr "two and a half") bare_world []
  = Some (Py.Return BadCodePy.VNone, ["Error converting value"])
  ∧ BadCodePy.process_input Py.float_of_str
      (BadCodePy.init (T := Z)) (BadCodePy.VStr "2.5") bare_world []
    = Some (Py.Return (BadCodePy.VFloat (S754_finite false 5629499534213120 (-51))), []).
Proof.
  pose proof (process_input_sentinel (T := Z) Py.float_of_str
                BadCodePy.init bare_world []) as (Hfail & Hok & _).
  split.
  - apply (Hfail (BadCodePy.VStr "two and a half") Py.ValueError); vm_compute; reflexivity.
  - apply (Hok (BadCodePy.VStr "2.5")); vm_compute; reflexivity.
Defined.

(** ** The scripts as programs *)

Lemma bind_ext {A B} (c c' : Py.proc A) (k k' : A → Py.proc B) :
  (∀ w out, c w out = c' w out) →
  (∀ a w out, k a w out = k' a w out) →
  ∀ w out, Py.bind c k w out = Py.bind c' k' w out.
Proof.
  intros Hc Hk w out. unfold Py.bind. rewrite Hc.
  destruct (c' w out) as [[[a|e] out']|]; [apply Hk|reflexivity|reflexivity].
Qed.

Lemma for_each_ext {A} (xs : list A) (f g : A → Py.proc unit) :
  (∀ x, x ∈ xs → ∀ w out, f x w out = g x w out) →
  ∀ w out, Py.for_each xs f w out = Py.for_each xs g w out.
Proof.
  induction xs as [|x xs IH]; intros Hfg w out; [reflexivity|].
  simpl. apply bind_ext.
  - apply Hfg. left.
  - intros _. apply IH. intros y Hy. apply Hfg. right. exact Hy.
Qed.

Lemma elem_of_range0 (x b : Z) : x ∈ Py.range0 b → 0 ≤ x < b.
Proof.
  unfold Py.range0, Py.range. rewrite elem_of_seqZ. lia.
Qed.

Lemma valid_main_fuel (fuel : nat) (w : Py.world) (out : list string) :
  (20 ≤ fuel)%nat → ValidPy.main fuel w out = ValidPy.main 20 w out.
Proof.
  intros Hfuel. unfold ValidPy.main, mbind, proc_bind.
  apply bind_ext; [reflexivity|]. intros _.
  apply bind_ext.
  { apply for_each_ext. intros x Hx%elem_of_range0 w' out'.
    rewrite !fibonacci_returns by lia. reflexivity. }
  intros _. apply bind_ext; [reflexivity|]. intros _.
  apply for_each_ext. intros x Hx%elem_of_range0 w' out'.
  rewrite !fibonacci_returns by lia. reflexivity.
Qed.

Lemma calculate_fibonacci_returns (fuel : nat) :
  ∀ n : Z, (Z.to_nat n < fuel)%nat →
           TestPy.calculate_fibonacci fuel n
           = Some (if n <? 0 then n else fib (Z.to_nat n)).
Proof.
  induction fuel as [|fuel IH]; intros n Hfuel; [lia|].
  simpl. destruct (Z.leb_spec n 1) as [Hle|Hgt].
  - destruct (Z.ltb_spec n 0) as [Hneg|Hpos]; [reflexivity|].
    assert (n = 0 ∨ n = 1) as [-> | ->] by lia; reflexivity.
  - rewrite !IH by lia.
    assert ((n <? 0) = false) as -> by (apply Z.ltb_ge; lia).
    assert ((n - 1 <? 0) = false) as -> by (apply Z.ltb_ge; lia).
    assert ((n - 2 <? 0) = false) as -> by (apply Z.ltb_ge; lia).
    rewrite <- fib_step by lia. reflexivity.
Qed.

Lemma test_main_fuel (fuel : nat) (w : Py.world) (out : list string) :
  (20 ≤ fuel)%nat → TestPy.main fuel w out = TestPy.main 20 w out.
Proof.
  intros Hfuel. unfold TestPy.main, mbind, proc_bind.
  apply bind_ext; [reflexivity|]. intros _.
  apply bind_ext; [|reflexivity].
  apply for_each_ext. intros x Hx%elem_of_range0 w' out'.
  rewrite !calculate_fibonacci_returns by lia. reflexivity.
Qed.

Lemma valid_py_output (fuel : nat) (w : Py.world) :
  (20 ≤ fuel)%nat →
  interpret valid_py fuel w
  = Some (Py.Stdout <$>
      [ "Fibonacci Sequence:";
        "fibonacci(0) = 0"; "fibonacci(1) = 1"; "fibonacci(2) = 1";
        "fibonacci(3) = 2"; "fibonacci(4) = 3"; "fibonacci(5) = 5";
        "fibonacci(6) = 8"; "fibonacci(7) = 13"; "fibonacci(8) = 21";
        "fibonacci(9) = 34";
        Py.nl +:+ "Prime Fibonacci Numbers:";
        "fibonacci(3) = 2 is prime"; "fibonacci(4) = 3 is prime";
        "fibonacci(5) = 5 is prime"; "fibonacci(7) = 13 is prime";
        "fibonacci(11) = 89 is prime"; "fibonacci(13) = 233 is prime";
        "fibonacci(17) = 1597 is prime" ]).
Proof.
  intros Hfuel. unfold interpret, Py.run_script, main_of.
  rewrite valid_main_fuel by exact Hfuel. vm_compute. reflexivity.
Qed.

Lemma test_py_output (fuel : nat) (w : Py.world) :
  (20 ≤ fuel)%nat →
  interpret test_py fuel w
  = Some (Py.Stdout <$>
      [ "Testing fibonacci calculation:";
        "Fibonacci(0) = 0"; "Fibonacci(1) = 1"; "Fibonacci(2) = 1";
        "Fibonacci(3) = 2"; "Fibonacci(4) = 3"; "Fibonacci(5) = 5";
        "Fibonacci(6) = 8"; "Fibonacci(7) = 13"; "Fibonacci(8) = 21";
        "Fibonacci(9) = 34";
        Py.nl +:+ "Testing prime numbers:";
        "2 is prime"; "3 is prime"; "5 is prime"; "7 is prime";
        "11 is prime"; "13 is prime"; "17 is prime"; "19 is prime" ]).
Proof.
  intros Hfuel. unfold interpret, Py.run_script, main_of.
  rewrite test_main_fuel by exact Hfuel. vm_compute. reflexivity.
Qed.

Lemma calculator_py_output (fuel : nat) (w : Py.world) :
  interpret calculator_py fuel w
  = Some (Py.Stdout <$> [ "5 + 3 = 8"; "10 - 4 = 6"; "Last result: 6" ]).
Proof. vm_compute. reflexivity. Qed.

Lemma bad_code_py_output (fuel : nat) (w : Py.world) :
  interpret bad_code_py fuel w
  = Some (Py.Stdout <$> [ "5 + 3 = 8"; "Last result: 8" ]).
Proof. vm_compute. reflexivity. Qed.

(** A program that reads its arguments is told apart by two worlds: the
    property of C9 is not one that every program of the model has. *)
Example echo_argument_depends_on_world :
  Py.run_script echo_argument (Py.World ["echo.py"; "a"] ∅ [])
  ≠ Py.run_script echo_argument (Py.World ["echo.py"; "b"] ∅ []).
Proof. vm_compute. discriminate. Qed.

(** C1: the text of [src/test.py] has no bracket left open, in
    [calculate_fibonacci] or anywhere else, so the file does not fail to
    parse for a missing closing parenthesis; run with a recursion budget of
    at least 20 calls, in any world, the script prints its twenty lines. *)
Theorem test_py_parses_and_prints (fuel : nat) (w : Py.world) :
  (20 ≤ fuel)%nat →
  Py.brackets_balanced TestPy.source_lines = true
  ∧ interpret test_py fuel w
    = Some (Py.Stdout <$>
        [ "Testing fibonacci calculation:";
          "Fibonacci(0) = 0"; "Fibonacci(1) = 1"; "Fibonacci(2) = 1";
          "Fibonacci(3) = 2"; "Fibonacci(4) = 3"; "Fibonacci(5) = 5";
          "Fibonacci(6) = 8"; "Fibonacci(7) = 13"; "Fibonacci(8) = 21";
          "Fibonacci(9) = 34";
          Py.nl +:+ "Testing prime numbers:";
          "2 is prime"; "3 is prime"; "5 is prime"; "7 is prime";
          "11 is prime"; "13 is prime"; "17 is prime"; "19 is prime" ]).
Proof.
  intros Hfuel. split.
  - vm_compute. reflexivity.
  - apply test_py_output. exact Hfuel.
Qed.

Lemma test_py_parses_and_prints_witness :
  Py.brackets_balanced TestPy.source_lines = true
  ∧ ∃ out, interpret test_py 25 bare_world = Some (Py.Stdout <$> out).
Proof.
  destruct (test_py_parses_and_prints 25 bare_world) as [Hb Hout]; [lia|].
  split; [exact Hb|]. eexists. exact Hout.
Defined.

(** The check does see a parenthesis that is left open: line 7 without its
    closing parenthesis. *)
Example missing_parenthesis_is_seen :
  Py.brackets_balanced (<[6%nat := "def calculate_fibonacci(n:"]> TestPy.source_lines)
  = false.
Proof. vm_compute. reflexivity. Qed.




(** C9: each of the four scripts is deterministic. Whatever the arguments,
    environment and input of the two worlds, and whatever the recursion
    budgets (of 20 calls at least), two runs of the same script have the
    same effects, and these effects are lines on standard output only:
    nothing goes to standard error, no exception escapes. *)
Theorem scripts_deterministic (s : script) (fuel1 fuel2 : nat) (w1 w2 : Py.world) :
  (20 ≤ fuel1)%nat → (20 ≤ fuel2)%nat →
  interpret s fuel1 w1 = interpret s fuel2 w2
  ∧ ∃ lines, interpret s fuel1 w1 = Some (Py.Stdout <$> lines).
Proof.
  intros H1 H2. destruct s.
  - rewrite !valid_py_output by assumption. split; [reflexivity|]. eexists. reflexivity.
  - rewrite !test_py_output by assumption. split; [reflexivity|]. eexists. reflexivity.
  - rewrite !calculator_py_output. split; [reflexivity|]. eexists. reflexivity.
  - rewrite !bad_code_py_output. split; [reflexivity|]. eexists. reflexivity.
Qed.

Lemma scripts_deterministic_witness :
  interpret valid_py 20 bare_world
  = interpret valid_py 30 (Py.World ["valid.py"; "-v"] {[ "HOME" := "/root" ]} ["x"])
  ∧ ∃ lines, interpret valid_py 20 bare_world = Some (Py.Stdout <$> lines).
Proof. apply (scripts_deterministic valid_py 20 30); lia. Defined.

(** ** The style check *)

(** C10: the modelled style check fails on [bad_code.py]: it reports the
    class name and two method names (naming), two assignments without
    spaces (spacing) and the bare [except] clause, so every one of the three
    conventions is broken at least once. *)
Theorem bad_code_fails_style_check :
  Style.style_check BadCodePy.source_lines
  = [ (5%nat, Style.Naming); (7%nat, Style.Spacing); (9%nat, Style.Naming);
      (11%nat, Style.Spacing); (27%nat, Style.Naming); (36%nat, Style.BareExcept) ]
  ∧ Style.fails_style_check BadCodePy.source_lines = true
  ∧ ∀ r : Style.rule, ∃ n, (n, r) ∈ Style.style_check BadCodePy.source_lines.
Proof.
  assert (Style.style_check BadCodePy.source_lines
          = [ (5%nat, Style.Naming); (7%nat, Style.Spacing); (9%nat, Style.Naming);
              (11%nat, Style.Spacing); (27%nat, Style.Naming);
              (36%nat, Style.BareExcept) ]) as Hcheck
    by (vm_compute; reflexivity).
  split; [exact Hcheck|]. split.
  - vm_compute. reflexivity.
  - rewrite Hcheck. intros [].
    + exists 5%nat. repeat constructor.
    + exists 7%nat. repeat constructor.
    + exists 36%nat. repeat constructor.
Qed.

(** The same check finds nothing in the other three files. *)
Example other_files_pass_style_check :
  Style.style_check ValidPy.source_lines = []
  ∧ Style.style_check CalculatorPy.source_lines = []
  ∧ Style.style_check TestPy.source_lines = [].
Proof. vm_compute. auto. Qed.

(** * Further properties *)

(** ** The dictionary and the depth of [fib_memo] *)

Lemma memo_upto_lookup (t : nat) (k : Z) :
  memo_upto t !! k
  = if (0 <=? k) && (k <=? Z.of_nat t) then Some (fib (Z.to_nat k)) else None.
Proof.
  induction t as [|t IH].
  - cbn [memo_upto]. destruct (decide (k = 0)) as [->|Hk].
    + reflexivity.
    + rewrite lookup_singleton_ne by congruence.
      destruct (Z.leb_spec 0 k), (Z.leb_spec k (Z.of_nat 0)); simpl; try reflexivity. lia.
  - cbn [memo_upto]. destruct (decide (k = Z.of_nat (S t))) as [->|Hk].
    + rewrite lookup_insert_eq, Nat2Z.id.
      destruct (Z.leb_spec 0 (Z.of_nat (S t))), (Z.leb_spec (Z.of_nat (S t)) (Z.of_nat (S t)));
        simpl; try reflexivity; lia.
    + rewrite lookup_insert_ne by congruence. rewrite IH.
      destruct (Z.leb_spec 0 k), (Z.leb_spec k (Z.of_nat t)), (Z.leb_spec k (Z.of_nat (S t)));
        simpl; try reflexivity; lia.
Qed.

Lemma memo_initial_upto : ({[ 0 := 0; 1 := 1 ]} : gmap Z Z) = memo_upto 1.
Proof.
  apply map_eq. intros k. rewrite memo_upto_lookup.
  destruct (decide (k = 0)) as [->|H0]; [reflexivity|].
  rewrite lookup_insert_ne by congruence.
  destruct (decide (k = 1)) as [->|H1]; [reflexivity|].
  rewrite lookup_singleton_ne by congruence.
  destruct (Z.leb_spec 0 k), (Z.leb_spec k (Z.of_nat 1)); simpl; try reflexivity. lia.
Qed.

(** [fib_memo] on the dictionary up to [t]: it returns exactly when the
    budget covers [depth_from t n], and then leaves the dictionary up to the
    larger of [t] and [n]. *)
Lemma fib_memo_upto (fuel : nat) :
  ∀ (n : Z) (t : nat),
    (1 ≤ t)%nat → 0 ≤ n →
    ValidPy.fib_memo fuel n (memo_upto t)
    = if depth_from t n <=? Z.of_nat fuel
      then Some (fib (Z.to_nat n), memo_upto (Nat.max t (Z.to_nat n)))
      else None.
Proof.
  induction fuel as [|fuel IH]; intros n t Ht Hn.
  - cbn [ValidPy.fib_memo]. unfold depth_from.
    destruct (Z.leb_spec n (Z.of_nat t));
      match goal with |- context [?a <=? ?b] => destruct (Z.leb_spec a b) end;
      try reflexivity; lia.
  - cbn [ValidPy.fib_memo]. rewrite memo_upto_lookup. unfold depth_from.
    destruct (Z.leb_spec 0 n) as [_|]; [|lia]. cbn [andb].
    destruct (Z.leb_spec n (Z.of_nat t)) as [Hle|Hgt].
    + assert ((1 <=? Z.of_nat (S fuel)) = true) as -> by (apply Z.leb_le; lia).
      replace (Nat.max t (Z.to_nat n)) with t by lia. reflexivity.
    + rewrite (IH (n - 1) t) by lia. unfold depth_from.
      assert ((if n - 1 <=? Z.of_nat t then 1 else n - 1 - Z.of_nat t + 1)
              = n - Z.of_nat t) as ->
        by (destruct (Z.leb_spec (n - 1) (Z.of_nat t)); lia).
      destruct (Z.leb_spec (n - Z.of_nat t) (Z.of_nat fuel)) as [Hfuel|Hfuel].
      * assert ((n - Z.of_nat t + 1 <=? Z.of_nat (S fuel)) = true) as ->
          by (apply Z.leb_le; lia).
        replace (Nat.max t (Z.to_nat (n - 1))) with (Z.to_nat (n - 1)) by lia.
        rewrite (IH (n - 2) (Z.to_nat (n - 1))) by lia. unfold depth_from.
        assert ((n - 2 <=? Z.of_nat (Z.to_nat (n - 1))) = true) as ->
          by (apply Z.leb_le; lia).
        assert ((1 <=? Z.of_nat fuel) = true) as -> by (apply Z.leb_le; lia).
        replace (Nat.max (Z.to_nat (n - 1)) (Z.to_nat (n - 2))) with (Z.to_nat (n - 1))
          by lia.
        cbv zeta. rewrite lookup_insert_eq. rewrite <- fib_step by lia.
        replace (Nat.max t (Z.to_nat n)) with (S (Z.to_nat (n - 1))) by lia.
        cbn [memo_upto].
        replace (Z.of_nat (S (Z.to_nat (n - 1)))) with n by lia.
        replace (S (Z.to_nat (n - 1))) with (Z.to_nat n) by lia.
        reflexivity.
      * assert ((n - Z.of_nat t + 1 <=? Z.of_nat (S fuel)) = false) as ->
          by (apply Z.leb_gt; lia).
        reflexivity.
Qed.

Lemma fibonacci_returns_exactly (fuel : nat) (n : Z) :
  0 ≤ n →
  ValidPy.fibonacci fuel n
  = if Z.max 1 n <=? Z.of_nat fuel then Some (fib (Z.to_nat n)) else None.
Proof.
  intros Hn. unfold ValidPy.fibonacci. rewrite memo_initial_upto.
  rewrite fib_memo_upto by lia. unfold depth_from.
  replace (if n <=? Z.of_nat 1 then 1 else n - Z.of_nat 1 + 1) with (Z.max 1 n)
    by (destruct (Z.leb_spec n (Z.of_nat 1)); lia).
  destruct (Z.max 1 n <=? Z.of_nat fuel); reflexivity.
Qed.

(** X1: [fibonacci(n)], for [n >= 0], needs a recursion depth of exactly
    [max(1, n)] calls: with that budget or more it returns the [n]th
    Fibonacci number, with less it does not return. *)
Theorem fibonacci_depth (fuel : nat) (n : Z) :
  0 ≤ n →
  (Z.max 1 n ≤ Z.of_nat fuel → ValidPy.fibonacci fuel n = Some (fib (Z.to_nat n)))
  ∧ (Z.of_nat fuel < Z.max 1 n → ValidPy.fibonacci fuel n = None).
Proof.
  intros Hn. rewrite fibonacci_returns_exactly by exact Hn. split; intros Hfuel.
  - assert ((Z.max 1 n <=? Z.of_nat fuel) = true) as -> by (apply Z.leb_le; lia).
    reflexivity.
  - assert ((Z.max 1 n <=? Z.of_nat fuel) = false) as -> by (apply Z.leb_gt; lia).
    reflexivity.
Qed.

Lemma fibonacci_depth_witness :
  ValidPy.fibonacci 12 12 = Some 144 ∧ ValidPy.fibonacci 11 12 = None.
Proof.
  destruct (fibonacci_depth 12 12) as [Hreturns _]; [lia|].
  destruct (fibonacci_depth 11 12) as [_ Hshort]; [lia|].
  split; [apply Hreturns|apply Hshort]; lia.
Defined.

(** X2: a call of [fib_memo] on [n >= 0] that returns, from the dictionary
    that holds the Fibonacci numbers of the indices 0 to [t] (as the
    recursion leaves it), returns the [n]th Fibonacci number and leaves the
    dictionary with the indices 0 to [max(t, n)], each with its Fibonacci
    number, and no other key; a call on an index that is already there
    changes nothing. *)
Theorem fib_memo_fills_dictionary (fuel : nat) (n : Z) (t : nat) (v : Z) (memo' : gmap Z Z) :
  (1 ≤ t)%nat → 0 ≤ n →
  ValidPy.fib_memo fuel n (memo_upto t) = Some (v, memo') →
  v = fib (Z.to_nat n)
  ∧ (∀ k, memo' !! k
          = if (0 <=? k) && (k <=? Z.max (Z.of_nat t) n)
            then Some (fib (Z.to_nat k)) else None)
  ∧ (n ≤ Z.of_nat t → memo' = memo_upto t).
Proof.
  intros Ht Hn Hcall. rewrite fib_memo_upto in Hcall by assumption.
  destruct (depth_from t n <=? Z.of_nat fuel); [|discriminate].
  injection Hcall as <- <-. split; [reflexivity|]. split.
  - intros k. rewrite memo_upto_lookup.
    replace (Z.of_nat (Nat.max t (Z.to_nat n))) with (Z.max (Z.of_nat t) n) by lia.
    reflexivity.
  - intros Hle. replace (Nat.max t (Z.to_nat n)) with t by lia. reflexivity.
Qed.

Lemma fib_memo_fills_dictionary_witness :
  ∃ memo', ValidPy.fib_memo 6 6 {[ 0 := 0; 1 := 1 ]} = Some (8, memo')
           ∧ memo' !! 4 = Some 3 ∧ memo' !! 7 = None ∧ memo' !! (-1) = None.
Proof.
  destruct (ValidPy.fib_memo 6 6 (memo_upto 1)) as [[v memo']|] eqn:Hcall;
    [|vm_compute in Hcall; discriminate Hcall].
  destruct (fib_memo_fills_dictionary 6 6 1 v memo') as (Hv & Hmemo & _);
    [lia|lia|exact Hcall|].
  exists memo'. rewrite memo_initial_upto, Hcall, Hv.
  split; [reflexivity|]. rewrite !Hmemo. repeat split.
Defined.

(** ** [calculate_fibonacci] *)

Lemma calculate_fibonacci_exact (fuel : nat) :
  ∀ n : Z,
    TestPy.calculate_fibonacci fuel n
    = if Z.max 1 n <=? Z.of_nat fuel
      then Some (if n <? 0 then n else fib (Z.to_nat n))
      else None.
Proof.
  induction fuel as [|fuel IH]; intros n.
  - cbn [TestPy.calculate_fibonacci].
    destruct (Z.leb_spec (Z.max 1 n) (Z.of_nat 0)); [lia|reflexivity].
  - cbn [TestPy.calculate_fibonacci]. destruct (Z.leb_spec n 1) as [Hle|Hgt].
    + assert ((Z.max 1 n <=? Z.of_nat (S fuel)) = true) as -> by (apply Z.leb_le; lia).
      destruct (Z.ltb_spec n 0); [reflexivity|].
      assert (n = 0 ∨ n = 1) as [-> | ->] by lia; reflexivity.
    + rewrite !IH.
      assert ((n <? 0) = false) as -> by (apply Z.ltb_ge; lia).
      assert ((n - 1 <? 0) = false) as -> by (apply Z.ltb_ge; lia).
      assert ((n - 2 <? 0) = false) as -> by (apply Z.ltb_ge; lia).
      destruct (Z.leb_spec (Z.max 1 (n - 1)) (Z.of_nat fuel)) as [Hfuel|Hfuel].
      * assert ((Z.max 1 (n - 2) <=? Z.of_nat fuel) = true) as -> by (apply Z.leb_le; lia).
        assert ((Z.max 1 n <=? Z.of_nat (S fuel)) = true) as -> by (apply Z.leb_le; lia).
        rewrite <- fib_step by lia. reflexivity.
      * assert ((Z.max 1 n <=? Z.of_nat (S fuel)) = false) as -> by (apply Z.leb_gt; lia).
        reflexivity.
Qed.

(** X3: [calculate_fibonacci(n)] returns [n] itself for every [n <= 1],
    negative numbers included, and the [n]th Fibonacci number from 2 on; it
    needs a recursion depth of exactly [max(1, n)] calls. *)
Theorem calculate_fibonacci_value_and_depth (fuel : nat) (n : Z) :
  (n ≤ 1 → (1 ≤ fuel)%nat → TestPy.calculate_fibonacci fuel n = Some n)
  ∧ (2 ≤ n → n ≤ Z.of_nat fuel →
     TestPy.calculate_fibonacci fuel n = Some (fib (Z.to_nat n)))
  ∧ (Z.of_nat fuel < Z.max 1 n → TestPy.calculate_fibonacci fuel n = None).
Proof.
  rewrite calculate_fibonacci_exact. split; [|split].
  - intros Hn Hfuel.
    assert ((Z.max 1 n <=? Z.of_nat fuel) = true) as -> by (apply Z.leb_le; lia).
    destruct (Z.ltb_spec n 0); [reflexivity|].
    assert (n = 0 ∨ n = 1) as [-> | ->] by lia; reflexivity.
  - intros Hn Hfuel.
    assert ((Z.max 1 n <=? Z.of_nat fuel) = true) as -> by (apply Z.leb_le; lia).
    assert ((n <? 0) = false) as -> by (apply Z.ltb_ge; lia). reflexivity.
  - intros Hfuel.
    assert ((Z.max 1 n <=? Z.of_nat fuel) = false) as -> by (apply Z.leb_gt; lia).
    reflexivity.
Qed.

Lemma calculate_fibonacci_value_and_depth_witness :
  TestPy.calculate_fibonacci 1 (-4) = Some (-4)
  ∧ TestPy.calculate_fibonacci 9 9 = Some 34
  ∧ TestPy.calculate_fibonacci 8 9 = None.
Proof.
  split; [|split].
  - apply (proj1 (calculate_fibonacci_value_and_depth 1 (-4))); lia.
  - apply (proj1 (proj2 (calculate_fibonacci_value_and_depth 9 9))); lia.
  - apply (proj2 (proj2 (calculate_fibonacci_value_and_depth 8 9))); lia.
Defined.

(** X4: the two Fibonacci functions of the repository return the same
    numbers from 0 on: whenever the depth allowed to each covers [max(1, n)]
    nested calls, of [calculate_fibonacci] for the one of [src/test.py] and
    of [fib_memo] for [fibonacci] of [valid.py], the two return the same
    number, the [n]th Fibonacci number. The two depths are counted apart,
    each in calls of its own recursive function. Below 0 the functions
    part: the first returns [n], the second does not return at any depth. *)
Theorem fibonacci_functions_agree (fuel1 fuel2 : nat) (n : Z) :
  (0 ≤ n → Z.max 1 n ≤ Z.of_nat fuel1 → Z.max 1 n ≤ Z.of_nat fuel2 →
   TestPy.calculate_fibonacci fuel1 n = ValidPy.fibonacci fuel2 n
   ∧ ValidPy.fibonacci fuel2 n = Some (fib (Z.to_nat n)))
  ∧ (n < 0 → (1 ≤ fuel1)%nat →
     TestPy.calculate_fibonacci fuel1 n = Some n ∧ ValidPy.fibonacci fuel2 n = None).
Proof.
  split.
  - intros Hn Hfuel1 Hfuel2.
    rewrite calculate_fibonacci_exact, fibonacci_returns_exactly by exact Hn.
    assert ((n <? 0) = false) as -> by (apply Z.ltb_ge; lia).
    assert ((Z.max 1 n <=? Z.of_nat fuel1) = true) as -> by (apply Z.leb_le; lia).
    assert ((Z.max 1 n <=? Z.of_nat fuel2) = true) as -> by (apply Z.leb_le; lia).
    split; reflexivity.
  - intros Hn Hfuel. split.
    + rewrite calculate_fibonacci_exact.
      assert ((Z.max 1 n <=? Z.of_nat fuel1) = true) as -> by (apply Z.leb_le; lia).
      assert ((n <? 0) = true) as -> by (apply Z.ltb_lt; lia). reflexivity.
    + unfold ValidPy.fibonacci.
      rewrite fib_memo_negative by (apply memo_ok_initial || exact Hn). reflexivity.
Qed.

Lemma fibonacci_functions_agree_witness :
  (TestPy.calculate_fibonacci 15 15 = ValidPy.fibonacci 16 15
   ∧ ValidPy.fibonacci 16 15 = Some (fib 15))
  ∧ TestPy.calculate_fibonacci 3 (-2) = Some (-2) ∧ ValidPy.fibonacci 7 (-2) = None.
Proof.
  split.
  - apply (proj1 (fibonacci_functions_agree 15 16 15)); lia.
  - apply (proj2 (fibonacci_functions_agree 3 7 (-2))); lia.
Defined.

(** ** [is_prime] of [src/test.py] *)

(** X5: the [is_prime] of [src/test.py] returns [False] on every integer
    below 2; on every integer [num] from 2 on for which the bound
    [int(num**0.5)] of its loop comes out as an integer [r] with
    [floor(sqrt(num)) <= r < num], it returns [True] exactly when [num] is
    prime; on every integer from [2 ** 1024] on it raises [OverflowError].
    All three hold whatever the power function of the C library returns. *)
Theorem test_is_prime_decides (pow : Py.float → Py.float) (num r : Z) :
  (num < 2 → TestPy.is_prime_with pow num = Py.Return false)
  ∧ (2 ≤ num → Py.int_sqrt_with pow num = Py.Return r → Z.sqrt num ≤ r < num →
     ∃ b, TestPy.is_prime_with pow num = Py.Return b ∧ (b = true ↔ Z.prime num))
  ∧ (2 ^ 1024 ≤ num → TestPy.is_prime_with pow num = Py.Raise Py.OverflowError).
Proof.
  rewrite test_is_prime_same.
  destruct (is_prime_with_cases pow num) as (Hlow & Hmid & Hhigh).
  split; [exact Hlow|]. split; [exact (Hmid r)|exact Hhigh].
Qed.

Lemma test_is_prime_decides_witness :
  TestPy.is_prime_with Py.pow_half 0 = Py.Return false
  ∧ (∃ b, TestPy.is_prime_with Py.pow_half 15 = Py.Return b ∧ (b = true ↔ Z.prime 15))
  ∧ TestPy.is_prime_with Py.pow_half (2 ^ 1030) = Py.Raise Py.OverflowError.
Proof.
  split; [|split].
  - apply (proj1 (test_is_prime_decides Py.pow_half 0 0)). lia.
  - apply (proj1 (proj2 (test_is_prime_decides Py.pow_half 15 3))).
    + lia.
    + vm_compute. reflexivity.
    + change (Z.sqrt 15) with 3. lia.
  - apply (proj2 (proj2 (test_is_prime_decides Py.pow_half (2 ^ 1030) 0))).
    apply Z.pow_le_mono_r; lia.
Defined.

(** ** The history of [Calculator] *)

Lemma results_length_le {T} `{Number T} (calls : list (CalculatorPy.call T)) :
  (length (CalculatorPy.results calls) ≤ length calls)%nat.
Proof.
  unfold CalculatorPy.results.
  induction calls as [|c calls IH]; [reflexivity|].
  destruct c; cbn [omap list_omap length] in *; lia.
Qed.

(** X7: no method of [Calculator] removes or rewrites an entry of the
    history: whatever calls follow, the history of an instance stays a
    prefix of its later history, and it has grown by the number of
    additions and subtractions among them, at most one entry per call. *)
Theorem history_append_only {T} `{Number T}
    (self : CalculatorPy.Calculator T) (calls : list (CalculatorPy.call T)) :
  let later := foldl CalculatorPy.perform self calls in
  CalculatorPy.history self `prefix_of` CalculatorPy.history later
  ∧ length (CalculatorPy.history later)
    = (length (CalculatorPy.history self) + length (CalculatorPy.results calls))%nat
  ∧ (length (CalculatorPy.results calls) ≤ length calls)%nat.
Proof.
  cbv zeta. rewrite history_foldl. split; [|split].
  - exists (CalculatorPy.results calls). reflexivity.
  - apply length_app.
  - apply results_length_le.
Qed.

(** X8: right after [add(a, b)], [get_last_result] returns [a + b], and
    right after [subtract(a, b)] it returns [a - b], whatever the history
    was before; asking twice gives the same answer and the same instance. *)
Theorem get_last_result_after {T} `{Number T}
    (self : CalculatorPy.Calculator T) (a b : T) :
  fst (CalculatorPy.get_last_result (snd (CalculatorPy.add self a b)))
  = Py.Return (Some (add_op a b))
  ∧ fst (CalculatorPy.get_last_result (snd (CalculatorPy.subtract self a b)))
    = Py.Return (Some (sub_op a b))
  ∧ CalculatorPy.get_last_result (snd (CalculatorPy.get_last_result self))
    = CalculatorPy.get_last_result self.
Proof.
  assert (∀ (h : list T) (x : T),
            fst (CalculatorPy.get_last_result {| CalculatorPy.history := h ++ [x] |})
            = Py.Return (Some x)) as Hsnoc.
  { intros h x. unfold CalculatorPy.get_last_result. cbn [CalculatorPy.history].
    destruct (h ++ [x]) as [|y l] eqn:Hh; [destruct h; discriminate Hh|].
    destruct (last_item_last (y :: l)) as (z & Hz & ->); [discriminate|].
    rewrite <- Hh, last_snoc in Hz. injection Hz as <-. reflexivity. }
  split; [apply Hsnoc|]. split; [apply Hsnoc|].
  unfold CalculatorPy.get_last_result at 2.
  destruct (CalculatorPy.history self) as [|y l] eqn:Hh; [reflexivity|].
  destruct (Py.last_item (y :: l)); reflexivity.
Qed.

(** X9: on integers [subtract] undoes [add]: after [add(a, b)] has returned
    [s], [subtract(s, b)] returns [a] and the history has gained [a + b]
    and [a]; on floats it need not, the sum being rounded: with [a = 1.0]
    and [b = 2.0 ** 53] the subtraction returns [0.0]. *)
Theorem subtract_undoes_add_on_integers (self : CalculatorPy.Calculator Z) (a b : Z) :
  (let '(s, calc) := CalculatorPy.add self a b in
   CalculatorPy.subtract calc s b
   = (a, {| CalculatorPy.history := CalculatorPy.history self ++ [a + b; a] |}))
  ∧ (let one := binary_normalize 53 1024 1 0 false in
     let big := binary_normalize 53 1024 1 53 false in
     let '(s, calc) := CalculatorPy.add (CalculatorPy.init (T := Py.float)) one big in
     fst (CalculatorPy.subtract calc s big) = S754_zero false).
Proof.
  split.
  - unfold CalculatorPy.add, CalculatorPy.subtract. cbn [CalculatorPy.history add_op sub_op int_number].
    rewrite <- app_assoc. cbn [app].
    replace (a + b - b) with a by lia. reflexivity.
  - vm_compute. reflexivity.
Qed.

(** ** The other methods of [badCalculator] *)

(** X10: on [None], on integers, on floats and on strings, the values of
    the builtin types, [process_input] lets no exception out, whatever the
    conversion [float] does: it returns, and what it returns is [0], [None]
    or a float; it returns a float only for a value of type [str] on which
    the conversion returned that float, and it prints nothing but, at most
    once, its message. *)
Theorem process_input_never_raises {T} `{Number T}
    (to_float : string → Py.outcome Py.float)
    (self : BadCodePy.badCalculator T) (v : BadCodePy.value)
    (w : Py.world) (out : list string) :
  ∃ r out',
    BadCodePy.process_input to_float self v w out = Some (Py.Return r, out')
    ∧ (out' = out ∨ out' = out ++ ["Error converting value"])
    ∧ (r = BadCodePy.VInt 0 ∨ r = BadCodePy.VNone
       ∨ ∃ x, r = BadCodePy.VFloat x ∧ out' = out
              ∧ BadCodePy.type_is_str v = true
              ∧ BadCodePy.float_of to_float v = Py.Return x).
Proof.
  unfold BadCodePy.process_input.
  destruct v as [|i|x|s|cls s]; cbn [BadCodePy.eq_None BadCodePy.type_is_str];
    try (eexists; eexists; split; [reflexivity|]; split; [left; reflexivity|];
         auto; fail).
  unfold Py.try_except, Py.lift, mbind, proc_bind, Py.bind.
  destruct (BadCodePy.float_of to_float (BadCodePy.VStr s)) as [x|e] eqn:Hconv.
  - eexists. eexists. split; [reflexivity|]. split; [left; reflexivity|].
    right. right. exists x. repeat split.
  - eexists. eexists. split; [reflexivity|]. split; [right; reflexivity|].
    right. left. reflexivity.
Qed.







(** X12: right after [Add(x, y)] or [subtract(x, y)], the direct access
    [calc.history[-1]] of [main] does not raise [IndexError]: it gives the
    number the method returned, whatever the history was before. *)
Theorem history_last_after_Add {T} `{Number T}
    (self : BadCodePy.badCalculator T) (x y : T) :
  Py.last_item (BadCodePy.history (snd (BadCodePy.Add self x y)))
  = Py.Return (fst (BadCodePy.Add self x y))
  ∧ Py.last_item (BadCodePy.history (snd (BadCodePy.subtract self x y)))
    = Py.Return (fst (BadCodePy.subtract self x y)).
Proof.
  assert (∀ (h : list T) (z : T), Py.last_item (h ++ [z]) = Py.Return z) as Hsnoc.
  { intros h z. destruct (last_item_last (h ++ [z])) as (u & Hu & ->).
    - destruct h; discriminate.
    - rewrite last_snoc in Hu. injection Hu as <-. reflexivity. }
  split; apply Hsnoc.
Qed.
